(** * connectx7_mcp.server: documentation fetch, cache and search pipeline

    A shallow embedding of [mcp-server/src/connectx7_mcp/server.py] and the
    properties of its cache, fetch and search operations.

    Python [str] values are modelled by [string]; a character is read as a
    code point below 256.  The cache directory is a finite map from file
    names to file contents.  The libraries the module calls ([hashlib],
    [json], [datetime], [httpx], [bs4], [markdownify]) are the fields of the
    class [Libs]; everything the module itself computes is defined here. *)

From Stdlib Require Import ZArith Ascii String List Bool Lia DecimalString.
From stdpp Require Import base option list gmap strings.

Local Open Scope Z_scope.
Set Warnings "-register-all".

(** ** Text: the [str] operations the module uses *)

Module Text.

Definition nl : ascii := ascii_of_nat 10.
Definition dquote : ascii := ascii_of_nat 34.

Definition is_nl (c : ascii) : bool := Ascii.eqb c nl.

Definition str1 (c : ascii) : string := String c EmptyString.

(** [c * n] for a one-character string. *)
Fixpoint rep (c : ascii) (n : nat) : string :=
  match n with
  | O => EmptyString
  | S n' => String c (rep c n')
  end.

Definition newlines (n : nat) : string := rep nl n.

(** [s[n:]] *)
Fixpoint drop (n : nat) (s : string) : string :=
  match n, s with
  | O, _ => s
  | S _, EmptyString => EmptyString
  | S n', String _ s' => drop n' s'
  end.

(** [s[:n]] *)
Fixpoint take (n : nat) (s : string) : string :=
  match n, s with
  | O, _ => EmptyString
  | S _, EmptyString => EmptyString
  | S n', String c s' => String c (take n' s')
  end.

(** [str.lower] on code points below 256: the letters A-Z and the Latin-1
    capitals U+00C0-U+00DE (the multiplication sign U+00D7 apart) move up by
    32, every other character stays. *)
Definition lower_char (c : ascii) : ascii :=
  let n := nat_of_ascii c in
  if ((65 <=? n)%nat && (n <=? 90)%nat)
     || ((192 <=? n)%nat && (n <=? 222)%nat && negb (n =? 215)%nat)
  then ascii_of_nat (n + 32)
  else c.

Fixpoint map_chars (f : ascii -> ascii) (s : string) : string :=
  match s with
  | EmptyString => EmptyString
  | String c s' => String (f c) (map_chars f s')
  end.

Definition lower : string -> string := map_chars lower_char.

(** [s.replace(a, b)] for one-character [a] and [b]. *)
Definition replace_char (a b : ascii) : string -> string :=
  map_chars (fun c => if Ascii.eqb c a then b else c).

(** [sub in s] *)
Fixpoint contains (sub s : string) : bool :=
  String.prefix sub s
  || match s with
     | EmptyString => false
     | String _ s' => contains sub s'
     end.

(** [s.split(c)] for a one-character separator. *)
Fixpoint split_char (sep : ascii) (s : string) : list string :=
  match s with
  | EmptyString => [EmptyString]
  | String c s' =>
      if Ascii.eqb c sep then EmptyString :: split_char sep s'
      else match split_char sep s' with
           | p :: ps => String c p :: ps
           | [] => [str1 c]
           end
  end.

(** [s.split("\n\n")]: the separator is looked for from left to right and
    the occurrences never overlap. *)
Fixpoint split_blank (s : string) : list string :=
  match s with
  | EmptyString => [EmptyString]
  | String c s' =>
      match s' with
      | String c' s'' =>
          if is_nl c && is_nl c' then EmptyString :: split_blank s''
          else match split_blank s' with
               | p :: ps => String c p :: ps
               | [] => [str1 c]
               end
      | EmptyString => [str1 c]
      end
  end.

(** [sep.join(items)] *)
Fixpoint join (sep : string) (items : list string) : string :=
  match items with
  | [] => EmptyString
  | [x] => x
  | x :: rest => x +:+ sep +:+ join sep rest
  end.

(** The longest prefix of newlines: what the greedy pattern [\n{3,}] can
    consume at the head of [s]. *)
Fixpoint newline_prefix (s : string) : nat :=
  match s with
  | EmptyString => O
  | String c s' => if is_nl c then S (newline_prefix s') else O
  end.

(** [re.sub(r'\n{3,}', '\n\n', s)]: the scan tries the pattern at each
    position; a match is replaced by two newlines and the scan resumes
    behind it, otherwise one character is copied.  [fuel] bounds the number
    of scan steps. *)
Fixpoint re_sub_scan (fuel : nat) (s : string) : string :=
  match fuel with
  | O => EmptyString
  | S fuel' =>
      match s with
      | EmptyString => EmptyString
      | String c s' =>
          let n := newline_prefix s in
          if (3 <=? n)%nat
          then newlines 2 +:+ re_sub_scan fuel' (drop n s)
          else String c (re_sub_scan fuel' s')
      end
  end.

Definition collapse_newlines (s : string) : string :=
  re_sub_scan (String.length s) s.

(** A one-pass formulation: [pending] newlines have been read and not yet
    written; a run is written out when it ends. *)
Definition squeeze (n : nat) : nat := if (3 <=? n)%nat then 2%nat else n.

Fixpoint collapse_runs (pending : nat) (s : string) : string :=
  match s with
  | EmptyString => newlines (squeeze pending)
  | String c s' =>
      if is_nl c then collapse_runs (S pending) s'
      else newlines (squeeze pending) +:+ String c (collapse_runs 0 s')
  end.

(** Lines and blank lines, for stating what the collapsing does to them. *)
Definition lines (s : string) : list string := split_char nl s.

Definition is_blank (l : string) : bool :=
  match l with EmptyString => true | _ => false end.

(** The longest run of consecutive blank lines ([cur] is the run being
    read). *)
Fixpoint longest_blank_run (cur : nat) (ls : list string) : nat :=
  match ls with
  | [] => cur
  | l :: ls' =>
      if is_blank l then longest_blank_run (S cur) ls'
      else Nat.max cur (longest_blank_run 0 ls')
  end.

Definition blank_run (s : string) : nat := longest_blank_run 0 (lines s).

Fixpoint ends_with_nl (s : string) : bool :=
  match s with
  | EmptyString => false
  | String c s' =>
      match s' with
      | EmptyString => is_nl c
      | String _ _ => ends_with_nl s'
      end
  end.

Definition starts_with_nl (s : string) : bool :=
  match s with
  | String c _ => is_nl c
  | EmptyString => false
  end.

(** The longest run of consecutive newline characters ([cur] is the run
    being read). *)
Fixpoint newline_run_max (cur : nat) (s : string) : nat :=
  match s with
  | EmptyString => cur
  | String c s' =>
      if is_nl c then newline_run_max (S cur) s'
      else Nat.max cur (newline_run_max 0 s')
  end.

Definition longest_newline_run (s : string) : nat := newline_run_max 0 s.

Definition first_line (s : string) : string := hd EmptyString (lines s).
Definition rest_lines (s : string) : list string := tl (lines s).

(** The lines that are not blank, in order. *)
Definition nonblank_lines (s : string) : list string :=
  List.filter (fun l => negb (is_blank l)) (lines s).

End Text.

Import Text.

(** ** Values: JSON documents, Python dictionaries, exceptions, timestamps *)

(** What [json.loads] can return.  Numbers are kept as integers; the records
    this module writes hold strings and [null] only. *)
Inductive json : Type :=
| JNull
| JBool (b : bool)
| JNum (n : Z)
| JStr (s : string)
| JArr (items : list json)
| JObj (members : list (string * json)).

(** A Python [dict] with string keys, in insertion order. *)
Definition dict : Type := list (string * json).

Fixpoint dict_get (k : string) (d : dict) : option json :=
  match d with
  | [] => None
  | (k', v) :: d' => if String.eqb k k' then Some v else dict_get k d'
  end.

(** [k in d] *)
Definition dict_mem (k : string) (d : dict) : bool :=
  match dict_get k d with Some _ => true | None => false end.

(** [d[k] = v]: an existing key keeps its position, a new one goes last. *)
Fixpoint dict_set (k : string) (v : json) (d : dict) : dict :=
  match d with
  | [] => [(k, v)]
  | (k', v') :: d' =>
      if String.eqb k k' then (k, v) :: d' else (k', v') :: dict_set k v d'
  end.

(** [d.get(k, default)] *)
Definition dict_get_default (k : string) (default : json) (d : dict) : json :=
  match dict_get k d with Some v => v | None => default end.

(** Truth value of a Python object, as [if x] and [not x] test it. *)
Definition truthy (v : json) : bool :=
  match v with
  | JNull => false
  | JBool b => b
  | JNum n => negb (n =? 0)
  | JStr s => negb (String.eqb s EmptyString)
  | JArr l => match l with [] => false | _ => true end
  | JObj l => match l with [] => false | _ => true end
  end.

(** The exceptions that occur in the modelled code. *)
Inductive exn : Type :=
| JSONDecodeError
| KeyError (key : string)
| ValueError
| OSError
| TypeError
| AttributeError
| RecursionError.

(** A [datetime]: microseconds since the epoch, naive (as [datetime.now()]
    returns it) or aware of a UTC offset. *)
Inductive datetime : Type :=
| Naive (us : Z)
| Aware (us : Z) (utcoffset : Z).

(** [timedelta(hours=h)] in microseconds. *)
Definition timedelta_hours (h : Z) : Z := h * 3600 * 1000000.

(** What an HTTP GET comes to: the time at which it is over, and either
    [str(e)] of the exception raised by [client.get] or [raise_for_status],
    or the body [r.text]. *)
Record response : Type := Response {
  finished : Z;
  outcome : string + string
}.

(** ** The libraries *)

Class Libs : Type := {
  (** [hashlib.md5(s.encode()).hexdigest()] *)
  md5_hexdigest : string -> string;
  (** [json.loads]: the value, or the exception it raises ([JSONDecodeError]
      for a text that is not JSON, [ValueError] for an integer with too many
      digits, [RecursionError] for a text that is nested too deep) *)
  json_loads : string -> exn + json;
  (** [json.dumps(_, indent=2)] *)
  json_dumps : json -> string;
  (** [datetime.fromisoformat]; [None] is [ValueError] *)
  fromisoformat : string -> option datetime;
  (** [isoformat()] of a naive [datetime] *)
  isoformat : Z -> string;
  (** [client.get(url, ...)] followed by [r.raise_for_status()], started at
      the given time *)
  http_get : string -> Z -> response;
  (** [bs4]: a parsed document and its elements *)
  soup : Type;
  tag : Type;
  BeautifulSoup : string -> soup;
  (** [for tag in soup(names): tag.decompose()] *)
  decompose_all : list string -> soup -> soup;
  find_name : string -> soup -> option tag;
  find_class : string -> soup -> option tag;
  find_id : string -> soup -> option tag;
  soup_body : soup -> option tag;
  (** [tag.string] *)
  tag_string : tag -> option string;
  (** [str(tag)] *)
  tag_str : tag -> string;
  (** [markdownify(_, heading_style="ATX")] *)
  markdownify : string -> string;
  (** [str(v)] for a number, a list or a dict *)
  py_repr : json -> string
}.

(** [str(v)], as an f-string formats a value. *)
Definition py_str {L : Libs} (v : json) : string :=
  match v with
  | JStr s => s
  | JNull => "None"
  | JBool true => "True"
  | JBool false => "False"
  | _ => py_repr v
  end.

(** ** The world: cache directory, clock, and the requests sent so far *)

Record World : Type := mkWorld {
  files : gmap string string;
  clock : Z;
  requests : list string
}.

(** Computations that read and change the world and may raise. *)
Definition M (A : Type) : Type := World -> (exn + A) * World.

Definition ret {A} (a : A) : M A := fun w => (inr a, w).

Definition raise {A} (e : exn) : M A := fun w => (inl e, w).

Definition bind {A B} (m : M A) (k : A -> M B) : M B :=
  fun w =>
    match m w with
    | (inl e, w') => (inl e, w')
    | (inr a, w') => k a w'
    end.

Notation "x <- c ;; k" := (bind c (fun x => k))
  (at level 100, c at next level, right associativity).
Notation "c ;;; k" := (bind c (fun _ => k))
  (at level 100, right associativity).

(** [try: body  except <handled>: handler] *)
Definition try_except {A} (body : M A) (handled : exn -> bool) (handler : M A) : M A :=
  fun w =>
    match body w with
    | (inl e, w') => if handled e then handler w' else (inl e, w')
    | r => r
    end.

Definition of_option {A} (e : exn) (o : option A) : M A :=
  match o with Some a => ret a | None => raise e end.

(** The value of a call, or the exception it raises. *)
Definition lift {A} (r : exn + A) : M A :=
  match r with inr a => ret a | inl e => raise e end.

(** [Path.exists], [Path.read_text], [Path.write_text] in the cache
    directory, and [datetime.now()]. *)
Definition path_exists (p : string) : M bool :=
  fun w => (inr (bool_decide (is_Some (files w !! p))), w).

Definition read_text (p : string) : M string :=
  fun w => match files w !! p with
           | Some txt => (inr txt, w)
           | None => (inl OSError, w)
           end.

Definition write_text (p : string) (txt : string) : M unit :=
  fun w => (inr tt, mkWorld (<[p := txt]> (files w)) (clock w) (requests w)).

Definition datetime_now : M Z := fun w => (inr (clock w), w).

(** ** The source registry *)

Record source : Type := Source {
  base : string;
  name : string;
  pages : list string
}.

Definition DOC_SOURCES : list (string * source) :=
  [ ("connectx7",
     Source "https://docs.nvidia.com/networking/display/ConnectX7VPI"
            "ConnectX-7 User Manual"
            [EmptyString; "/Introduction"; "/Hardware+Installation";
             "/Driver+Installation"; "/Firmware+Update"; "/Port+Configuration";
             "/Troubleshooting"; "/Specifications"; "/Performance+Tuning"]);
    ("doca",
     Source "https://docs.nvidia.com/doca/sdk"
            "DOCA SDK"
            [EmptyString; "/doca-overview/index.html";
             "/doca-installation-guide-for-linux/index.html";
             "/rdma-over-converged-ethernet/index.html"]);
    ("vma",
     Source "https://docs.nvidia.com/networking/display/VMAv98"
            "VMA User Manual"
            [EmptyString; "/Introduction"; "/Installation"; "/Configuration";
             "/API"; "/Performance+Tuning"; "/Troubleshooting"]);
    ("rdma",
     Source "https://docs.nvidia.com/networking/display/RDMAAwareProgrammingv17"
            "RDMA Programming Guide"
            [EmptyString; "/RDMA-Aware+Programming+Overview";
             "/RDMA+Verbs+API"; "/Programming+Examples+Using+IBV+Verbs"]);
    ("mlnx_ofed",
     Source "https://docs.nvidia.com/networking/display/MLNXOFEDv24100700"
            "MLNX_OFED Documentation"
            [EmptyString; "/Introduction"; "/Installation"; "/Performance+Tuning"]);
    ("mlx5_kernel",
     Source "https://www.kernel.org/doc/html/latest/networking/device_drivers/ethernet/mellanox/mlx5"
            "mlx5 Kernel Driver"
            ["/index.html"; "/kconfig.html"; "/tracepoints.html"; "/counters.html"]);
    ("dpdk_mlx5",
     Source "https://doc.dpdk.org/guides/platform"
            "DPDK mlx5 Driver"
            ["/mlx5.html"]) ].

(** [DOC_SOURCES.keys()], [topic in DOC_SOURCES], [DOC_SOURCES[topic]] *)
Definition registry_keys : list string := map fst DOC_SOURCES.

Fixpoint assoc {A} (k : string) (l : list (string * A)) : option A :=
  match l with
  | [] => None
  | (k', v) :: l' => if String.eqb k k' then Some v else assoc k l'
  end.

Definition lookup_source (topic : string) : option source := assoc topic DOC_SOURCES.

(** ** The cache store *)

Definition CACHE_HOURS : Z := 24.

(** The file name under [CACHE_DIR]. *)
Definition cache_path {L : Libs} (url : string) : string :=
  take 12 (md5_hexdigest url) +:+ ".json".

(** [data[k]] for the value [json.loads] returned. *)
Definition subscript (data : json) (k : string) : M json :=
  match data with
  | JObj d => of_option (KeyError k) (dict_get k d)
  | _ => raise TypeError
  end.

(** [datetime.fromisoformat(v)] *)
Definition datetime_fromisoformat {L : Libs} (v : json) : M datetime :=
  match v with
  | JStr s => of_option ValueError (fromisoformat s)
  | _ => raise TypeError
  end.

(** [now - t] for the naive [now] *)
Definition datetime_sub (now : Z) (t : datetime) : M Z :=
  match t with
  | Naive us => ret (now - us)
  | Aware _ _ => raise TypeError
  end.

Definition cache_valid_handled (e : exn) : bool :=
  match e with
  | JSONDecodeError | KeyError _ | ValueError | OSError => true
  | TypeError | AttributeError | RecursionError => false
  end.

Definition cache_valid {L : Libs} (path : string) : M bool :=
  ex <- path_exists path ;;
  if negb ex then ret false
  else
    try_except
      (txt <- read_text path ;;
       data <- lift (json_loads txt) ;;
       now <- datetime_now ;;
       ts <- subscript data "ts" ;;
       t <- datetime_fromisoformat ts ;;
       age <- datetime_sub now t ;;
       ret (age <? timedelta_hours CACHE_HOURS))
      cache_valid_handled
      (ret false).

(** ** The document fetcher *)

(** [data[k] = v] for the value [json.loads] returned. *)
Definition store_item (data : json) (k : string) (v : json) : M dict :=
  match data with
  | JObj d => ret (dict_set k v d)
  | _ => raise TypeError
  end.

(** The world once a GET of [url] is over: the clock has moved and the
    request is on record. *)
Definition after_get {L : Libs} (url : string) (w : World) : World :=
  mkWorld (files w) (finished (http_get url (clock w))) (requests w ++ [url]).

(** [client.get] with [raise_for_status], both under [except Exception]. *)
Definition client_get {L : Libs} (url : string) : M (string + string) :=
  fun w => (inr (outcome (http_get url (clock w))), after_get url w).

(** [a or b] on elements: an element is always true, [None] is false. *)
Definition or_else {A} (a b : option A) : option A :=
  match a with Some _ => a | None => b end.

Definition CHROME : list string :=
  ["nav"; "header"; "footer"; "script"; "style"; "aside"].

Definition last_segment (url : string) : string :=
  List.last (split_char "/" url) EmptyString.

Definition json_of_title (t : option string) : json :=
  match t with Some s => JStr s | None => JNull end.

(** The content region: [soup.find("main") or soup.find("article") or
    soup.find(class_="content") or soup.find(id="content") or soup.body]. *)
Definition select_main {L : Libs} (sp : soup) : option tag :=
  or_else (find_name "main" sp)
    (or_else (find_name "article" sp)
       (or_else (find_class "content" sp)
          (or_else (find_id "content" sp) (soup_body sp)))).

(** [soup.title.string if soup.title else url.split("/")[-1]] *)
Definition page_title {L : Libs} (url : string) (sp : soup) : json :=
  match find_name "title" sp with
  | Some t => json_of_title (tag_string t)
  | None => JStr (last_segment url)
  end.

(** [re.sub(r'\n{3,}', '\n\n', md(str(main), heading_style="ATX"))] *)
Definition page_content {L : Libs} (main : tag) : string :=
  collapse_newlines (markdownify (tag_str main)).

(** The record that goes to disk. *)
Definition new_record {L : Libs} (url : string) (title : json) (content : string)
    (now : Z) : dict :=
  [("url", JStr url); ("title", title); ("content", JStr content);
   ("ts", JStr (isoformat now))].

Definition fetch {L : Libs} (url : string) (refresh : bool) : M dict :=
  let cp := cache_path url in
  hit <- (if negb refresh then cache_valid cp else ret false) ;;
  if (hit : bool) then
    txt <- read_text cp ;;
    data <- lift (json_loads txt) ;;
    store_item data "cached" (JBool true)
  else
    r <- client_get url ;;
    match r with
    | inl e => ret [("error", JStr e)]
    | inr text =>
        let sp := decompose_all CHROME (BeautifulSoup text) in
        match select_main sp with
        | None => ret [("error", JStr "No content found")]
        | Some main =>
            let title := page_title url sp in
            let content := page_content main in
            now <- datetime_now ;;
            let data := new_record url title content now in
            write_text cp (json_dumps (JObj data)) ;;;
            ret (dict_set "cached" (JBool false) data)
        end
    end.

(** ** The operations *)

(** [topic.lower().replace("-", "_").replace(" ", "_")] *)
Definition normalize_topic (topic : string) : string :=
  replace_char " " "_" (replace_char "-" "_" (lower topic)).

(** The text made of what [fetch] returned for [url]. *)
Definition render_page {L : Libs} (url : string) (result : dict) : M string :=
  if dict_mem "error" result then
    err <- of_option (KeyError "error") (dict_get "error" result) ;;
    ret ("Error fetching " +:+ url +:+ ": " +:+ py_str err)
  else
    let status :=
      if truthy (dict_get_default "cached" JNull result) then "cached" else "fresh" in
    title <- of_option (KeyError "title") (dict_get "title" result) ;;
    content <- of_option (KeyError "content") (dict_get "content" result) ;;
    ret ("# " +:+ py_str title +:+ str1 nl +:+ str1 nl +:+ "Source: " +:+ url
         +:+ " (" +:+ status +:+ ")" +:+ str1 nl +:+ str1 nl +:+ py_str content).

Definition fetch_nvidia_docs {L : Libs} (topic page : string) (refresh : bool) : M string :=
  let topic := normalize_topic topic in
  match lookup_source topic with
  | None =>
      let available := join ", " registry_keys in
      ret ("Unknown topic '" +:+ topic +:+ "'. Available: " +:+ available)
  | Some src =>
      let url := base src +:+ page in
      result <- fetch url refresh ;;
      render_page url result
  end.

(** One entry of [results]. *)
Record hit : Type := Hit {
  hit_src : string;
  hit_title : json;
  hit_url : string;
  hit_matches : list string
}.

(** [v.lower()] and the string it is called on; other values have no such
    method. *)
Definition as_str (v : json) : M string :=
  match v with
  | JStr s => ret s
  | _ => raise AttributeError
  end.

(** [[p for p in content.split("\n\n") if query_lower in p.lower()]] *)
Definition matching_paragraphs (query_lower content : string) : list string :=
  List.filter (fun p => contains query_lower (lower p)) (split_blank content).

(** The body of the inner loop, for one page. *)
Definition search_page {L : Libs} (query_lower : string) (src : source)
    (page_path : string) (results : list hit) : M (list hit) :=
  let url := base src +:+ page_path in
  data <- fetch url false ;;
  if dict_mem "error" data then ret results
  else
    content <- as_str (dict_get_default "content" (JStr EmptyString) data) ;;
    if contains query_lower (lower content) then
      let paras := matching_paragraphs query_lower content in
      match paras with
      | [] => ret results
      | _ =>
          ret (results ++
               [Hit (name src) (dict_get_default "title" (JStr page_path) data)
                    url (firstn 2 paras)])
      end
    else ret results.

(** [for page_path in src["pages"]: ...] *)
Fixpoint search_pages {L : Libs} (query_lower : string) (src : source)
    (page_paths : list string) (results : list hit) : M (list hit) :=
  match page_paths with
  | [] => ret results
  | page_path :: rest =>
      results <- search_page query_lower src page_path results ;;
      search_pages query_lower src rest results
  end.

(** [for topic in topics: ...] *)
Fixpoint search_topics {L : Libs} (query_lower : string) (topics : list string)
    (results : list hit) : M (list hit) :=
  match topics with
  | [] => ret results
  | topic :: rest =>
      match lookup_source topic with
      | None => search_topics query_lower rest results
      | Some src =>
          results <- search_pages query_lower src (pages src) results ;;
          search_topics query_lower rest results
      end
  end.

(** [m[:500] + "..." if len(m) > 500 else m] *)
Definition truncated (m : string) : string :=
  if (500 <? String.length m)%nat then take 500 m +:+ "..." else m.

(** The lines one entry of [results[:10]] adds to [out]. *)
Definition render_hit {L : Libs} (r : hit) : list string :=
  ("## " +:+ hit_src r +:+ " - " +:+ py_str (hit_title r))
  :: ("URL: " +:+ hit_url r +:+ str1 nl)
  :: map (fun m => "> " +:+ truncated m +:+ str1 nl) (hit_matches r).

Definition render_results {L : Libs} (query : string) (results : list hit) : string :=
  match results with
  | [] => "No results found for '" +:+ query +:+ "'"
  | _ =>
      join (str1 nl)
        (("# Search Results: '" +:+ query +:+ "'" +:+ str1 nl)
         :: concat (map render_hit (firstn 10 results)))
  end.

(** [topics], or [list(DOC_SOURCES.keys())] when it is [None]. *)
Definition requested (topics : option (list string)) : list string :=
  match topics with Some l => l | None => registry_keys end.

Definition search_nvidia_docs {L : Libs} (query : string) (topics : option (list string))
    : M string :=
  let topics := requested topics in
  let query_lower := lower query in
  results <- search_topics query_lower topics [] ;;
  ret (render_results query results).

(** ** Clearing the cache *)

(** [s.endswith(suffix)] *)
Fixpoint ends_with (suffix s : string) : bool :=
  String.eqb s suffix
  || match s with
     | EmptyString => false
     | String _ s' => ends_with suffix s'
     end.

(** [str(n)] for a count. *)
Definition str_of_nat (n : nat) : string := NilEmpty.string_of_uint (Nat.to_uint n).

(** [CACHE_DIR.glob("*.json")]: the names of the cache directory that end in
    [.json]. *)
Definition glob_json : M (list string) :=
  fun w =>
    (inr (filter (fun p => Is_true (ends_with ".json" p)) (map_to_list (files w)).*1), w).

(** [f.unlink()] *)
Definition unlink (p : string) : M unit :=
  fun w =>
    match files w !! p with
    | Some _ => (inr tt, mkWorld (delete p (files w)) (clock w) (requests w))
    | None => (inl OSError, w)
    end.

(** [sum(1 for f in names if f.unlink() or True)], from [count] on. *)
Fixpoint unlink_count (names : list string) (count : nat) : M nat :=
  match names with
  | [] => ret count
  | f :: rest => unlink f ;;; unlink_count rest (S count)
  end.

(** [cache_dir] is [str(CACHE_DIR)]. *)
Definition clear_doc_cache (cache_dir : string) : M string :=
  names <- glob_json ;;
  count <- unlink_count names 0 ;;
  ret ("Cleared " +:+ str_of_nat count +:+ " cached documentation files from "
       +:+ cache_dir).

(** ** The encodings on disk

    What the Python library computes where [fetch] and [cache_valid] use it
    on a record: [json.dumps(_, indent=2)] and [json.loads] on a dictionary
    of strings, [None] and booleans, [isoformat] and [fromisoformat] on a
    naive time.  Characters are code points below 256. *)

Module Codec.

(** *** Strings *)

(** The hexadecimal digit of a number below 16, in lower case as [%04x]
    writes it, and the number of a hexadecimal digit in either case. *)
Definition hex_digit (n : nat) : ascii :=
  if (n <? 10)%nat then ascii_of_nat (nat_of_ascii "0" + n)
  else ascii_of_nat (nat_of_ascii "a" + (n - 10)).

Definition in_range (lo hi c : ascii) : bool :=
  (nat_of_ascii lo <=? nat_of_ascii c)%nat && (nat_of_ascii c <=? nat_of_ascii hi)%nat.

Definition hex_value (c : ascii) : option nat :=
  let n := nat_of_ascii c in
  if in_range "0" "9" c then Some (n - nat_of_ascii "0")%nat
  else if in_range "a" "f" c then Some (10 + (n - nat_of_ascii "a"))%nat
  else if in_range "A" "F" c then Some (10 + (n - nat_of_ascii "A"))%nat
  else None.

(** What [json.dumps] writes for one character of a string, with
    [ensure_ascii] left at its default: the quote and the backslash behind a
    backslash, the short escapes, the characters from the space to the tilde
    as they are, and any other as [\u00xx]. *)
Definition escape_char (c : ascii) : string :=
  let n := nat_of_ascii c in
  if Ascii.eqb c dquote then String "\" (str1 dquote)
  else if Ascii.eqb c "\" then "\\"
  else if (n =? 10)%nat then "\n"
  else if (n =? 13)%nat then "\r"
  else if (n =? 9)%nat then "\t"
  else if (n =? 8)%nat then "\b"
  else if (n =? 12)%nat then "\f"
  else if (32 <=? n)%nat && (n <=? 126)%nat then str1 c
  else "\u00" +:+ String (hex_digit (n / 16)) (str1 (hex_digit (n mod 16))).

Fixpoint escape_ascii (s : string) : string :=
  match s with
  | EmptyString => EmptyString
  | String c s' => escape_char c +:+ escape_ascii s'
  end.

Definition quoted (s : string) : string :=
  String dquote (escape_ascii s +:+ str1 dquote).

(** The character that a backslash and [e] stand for. *)
Definition unescape (e : ascii) : option ascii :=
  if Ascii.eqb e dquote then Some dquote
  else match e with
       | "\" => Some "\" | "/" => Some "/"
       | "b" => Some (ascii_of_nat 8) | "f" => Some (ascii_of_nat 12)
       | "n" => Some (ascii_of_nat 10) | "r" => Some (ascii_of_nat 13)
       | "t" => Some (ascii_of_nat 9)
       | _ => None
       end%char.

Definition hex4 (h1 h2 h3 h4 : ascii) : option nat :=
  a ← hex_value h1; b ← hex_value h2; c ← hex_value h3; d ← hex_value h4;
  Some (((a * 16 + b) * 16 + c) * 16 + d)%nat.

Definition prepend (c : ascii) (r : option (string * string)) : option (string * string) :=
  '(s, rest) ← r; Some (String c s, rest).

(** The string that ends at the first quote of [s] that is not escaped,
    decoded, and what follows that quote.  A control character is refused,
    as [json.loads] refuses it; so is an escape for a code point from 256
    on, which has no character here. *)
Fixpoint scan_string (s : string) : option (string * string) :=
  match s with
  | EmptyString => None
  | String c s' =>
      if Ascii.eqb c dquote then Some (EmptyString, s')
      else if Ascii.eqb c "\" then
        match s' with
        | EmptyString => None
        | String e s'' =>
            if Ascii.eqb e "u" then
              match s'' with
              | String h1 (String h2 (String h3 (String h4 s3))) =>
                  match hex4 h1 h2 h3 h4 with
                  | Some n =>
                      if (n <? 256)%nat then prepend (ascii_of_nat n) (scan_string s3)
                      else None
                  | None => None
                  end
              | _ => None
              end
            else
              match unescape e with
              | Some c' => prepend c' (scan_string s'')
              | None => None
              end
        end
      else if (nat_of_ascii c <? 32)%nat then None
      else prepend c (scan_string s')
  end.

(** [s] without its prefix [p]. *)
Fixpoint strip (p s : string) : option string :=
  match p with
  | EmptyString => Some s
  | String c p' =>
      match s with
      | String c' s' => if Ascii.eqb c' c then strip p' s' else None
      | EmptyString => None
      end
  end.

(** *** Records *)

(** The text of a value that is a string, [None] or a boolean. *)
Definition dumps_value (v : json) : option string :=
  match v with
  | JStr s => Some (quoted s)
  | JNull => Some "null"
  | JBool true => Some "true"
  | JBool false => Some "false"
  | _ => None
  end.

Definition dumps_member (kv : string * json) : option string :=
  v ← dumps_value kv.2; Some ("  " +:+ quoted kv.1 +:+ ": " +:+ v).

(** The members, one on a line, with a comma between two of them. *)
Fixpoint dumps_members (d : dict) : option string :=
  match d with
  | [] => None
  | kv :: rest =>
      m ← dumps_member kv;
      match rest with
      | [] => Some m
      | _ => r ← dumps_members rest; Some (m +:+ "," +:+ str1 nl +:+ r)
      end
  end.

(** [json.dumps(d, indent=2)] for a dictionary of such values. *)
Definition dumps_record (d : dict) : option string :=
  match d with
  | [] => Some "{}"
  | _ => body ← dumps_members d; Some ("{" +:+ str1 nl +:+ body +:+ str1 nl +:+ "}")
  end.

Definition loads_value (s : string) : option (json * string) :=
  match s with
  | String c s' =>
      if Ascii.eqb c dquote then '(v, rest) ← scan_string s'; Some (JStr v, rest)
      else match strip "null" s with
           | Some rest => Some (JNull, rest)
           | None =>
               match strip "true" s with
               | Some rest => Some (JBool true, rest)
               | None => rest ← strip "false" s; Some (JBool false, rest)
               end
           end
  | EmptyString => None
  end.

Definition loads_member (s : string) : option ((string * json) * string) :=
  s ← strip ("  " +:+ str1 dquote) s;
  '(k, s) ← scan_string s;
  s ← strip ": " s;
  '(v, s) ← loads_value s;
  Some ((k, v), s).

(** The members up to the closing brace, each stored as [d[k] = v] stores
    it: of two members with one key the second gives the value. *)
Fixpoint loads_members (fuel : nat) (s : string) (d : dict) : option dict :=
  match fuel with
  | O => None
  | S fuel' =>
      '(kv, rest) ← loads_member s;
      let d := dict_set kv.1 kv.2 d in
      if String.eqb rest (str1 nl +:+ "}") then Some d
      else rest ← strip ("," +:+ str1 nl) rest; loads_members fuel' rest d
  end.

(** [json.loads] on a text laid out as [json.dumps(_, indent=2)] lays out a
    dictionary of strings, [None] and booleans; no other text is read
    here. *)
Definition loads_record (txt : string) : option dict :=
  if String.eqb txt "{}" then Some []
  else s ← strip ("{" +:+ str1 nl) txt; loads_members (String.length txt) s [].

(** *** Times *)

(** The date of the day [z] days after 1970-01-01 in the proleptic
    Gregorian calendar, and the number of the day of a date. *)
Definition civil_from_days (z : Z) : Z * Z * Z :=
  let z := z + 719468 in
  let era := z / 146097 in
  let doe := z - era * 146097 in
  let yoe := (doe - doe / 1460 + doe / 36524 - doe / 146096) / 365 in
  let doy := doe - (365 * yoe + yoe / 4 - yoe / 100) in
  let mp := (5 * doy + 2) / 153 in
  let d := doy - (153 * mp + 2) / 5 + 1 in
  let m := if mp <? 10 then mp + 3 else mp - 9 in
  (yoe + era * 400 + (if m <=? 2 then 1 else 0), m, d).

Definition days_from_civil (y m d : Z) : Z :=
  let y := y - (if m <=? 2 then 1 else 0) in
  let era := y / 400 in
  let yoe := y - era * 400 in
  let doy := (153 * (if 2 <? m then m - 3 else m + 9) + 2) / 5 + d - 1 in
  let doe := yoe * 365 + yoe / 4 - yoe / 100 + doy in
  era * 146097 + doe - 719468.

(** The decimal digit of a number below 10, and the number of a decimal
    digit. *)
Definition digit (d : Z) : ascii := ascii_of_N (N_of_ascii "0" + Z.to_N d).

Definition digit_value (c : ascii) : option Z :=
  let n := Z.of_N (N_of_ascii c) in
  let zero := Z.of_N (N_of_ascii "0") in
  if (zero <=? n) && (n <=? zero + 9) then Some (n - zero) else None.

(** The last [n] decimal digits of [v]: [v] padded with zeros to [n]
    digits when it has no more. *)
Fixpoint digits (n : nat) (v : Z) : string :=
  match n with
  | O => EmptyString
  | S n' => digits n' (v / 10) +:+ str1 (digit (v mod 10))
  end.

(** The number that [n] decimal digits at the head of [s] add to the
    digits [acc], and what follows them. *)
Fixpoint number (n : nat) (acc : Z) (s : string) : option (Z * string) :=
  match n with
  | O => Some (acc, s)
  | S n' =>
      match s with
      | String c s' =>
          match digit_value c with
          | Some d => number n' (10 * acc + d) s'
          | None => None
          end
      | EmptyString => None
      end
  end.

Definition expect (c : ascii) (s : string) : option string :=
  match s with
  | String c' s' => if Ascii.eqb c' c then Some s' else None
  | EmptyString => None
  end.

(** A day in microseconds. *)
Definition day_us : Z := 86400000000.

Definition year_of (t : Z) : Z := (civil_from_days (t / day_us)).1.1.

(** A [datetime] has a year from 1 to 9999. *)
Definition representable (t : Z) : bool := (1 <=? year_of t) && (year_of t <=? 9999).

(** [isoformat()] of a naive time: the microseconds are left out when
    there are none. *)
Definition isoformat_text (t : Z) : string :=
  let '(y, m, d) := civil_from_days (t / day_us) in
  let secs := t mod day_us / 1000000 in
  let us := t mod day_us mod 1000000 in
  digits 4 y +:+ "-" +:+ digits 2 m +:+ "-" +:+ digits 2 d +:+ "T"
  +:+ digits 2 (secs / 3600) +:+ ":" +:+ digits 2 (secs / 60 mod 60)
  +:+ ":" +:+ digits 2 (secs mod 60)
  +:+ (if us =? 0 then EmptyString else "." +:+ digits 6 us).

(** The time that the fields of a text in one of these two layouts give. *)
Definition fromisoformat_fields (s : string) : option Z :=
  '(y, s) ← number 4 0 s;
  s ← expect "-" s;
  '(m, s) ← number 2 0 s;
  s ← expect "-" s;
  '(d, s) ← number 2 0 s;
  s ← expect "T" s;
  '(h, s) ← number 2 0 s;
  s ← expect ":" s;
  '(mi, s) ← number 2 0 s;
  s ← expect ":" s;
  '(sec, s) ← number 2 0 s;
  '(us, s) ← match s with
             | EmptyString => Some (0, s)
             | _ => s ← expect "." s; number 6 0 s
             end;
  match s with
  | EmptyString =>
      Some (days_from_civil y m d * day_us + ((h * 60 + mi) * 60 + sec) * 1000000 + us)
  | _ => None
  end.

(** [fromisoformat] on the texts that [isoformat] writes: the fields are
    those of a time, and the time is written this way.  No other text is
    read here. *)
Definition fromisoformat_text (s : string) : option Z :=
  t ← fromisoformat_fields s;
  if representable t && String.eqb (isoformat_text t) s then Some t else None.

End Codec.

(** The libraries [L0] with [json] and [datetime] computing as above where
    the definitions above apply, and as in [L0] elsewhere. *)
Definition with_codec (L0 : Libs) : Libs := {|
  md5_hexdigest := md5_hexdigest (Libs := L0);
  json_loads txt :=
    match Codec.loads_record txt with
    | Some d => inr (JObj d)
    | None => json_loads (Libs := L0) txt
    end;
  json_dumps v :=
    match v with
    | JObj d =>
        match Codec.dumps_record d with
        | Some txt => txt
        | None => json_dumps (Libs := L0) v
        end
    | _ => json_dumps (Libs := L0) v
    end;
  fromisoformat s :=
    match Codec.fromisoformat_text s with
    | Some t => Some (Naive t)
    | None => fromisoformat (Libs := L0) s
    end;
  isoformat t :=
    if Codec.representable t then Codec.isoformat_text t
    else isoformat (Libs := L0) t;
  http_get := http_get (Libs := L0);
  soup := soup (Libs := L0);
  tag := tag (Libs := L0);
  BeautifulSoup := BeautifulSoup (Libs := L0);
  decompose_all := decompose_all (Libs := L0);
  find_name := find_name (Libs := L0);
  find_class := find_class (Libs := L0);
  find_id := find_id (Libs := L0);
  soup_body := soup_body (Libs := L0);
  tag_string := tag_string (Libs := L0);
  tag_str := tag_str (Libs := L0);
  markdownify := markdownify (Libs := L0);
  py_repr := py_repr (Libs := L0)
|}.

(** ** A small environment to run the code in

    The library functions are given on the handful of inputs the examples
    below use: one page that is served for a day, one that is empty, pages
    that cannot be reached, and the records that can then be on disk. *)

Module Demo.

Definition backslash : ascii := ascii_of_nat 92.

Definition q (s : string) : string := str1 dquote +:+ s +:+ str1 dquote.

Definition mlx5_url : string := "https://doc.dpdk.org/guides/platform/mlx5.html".
Definition rdma_url : string :=
  "https://docs.nvidia.com/networking/display/RDMAAwareProgrammingv17".
Definition verbs_url : string := rdma_url +:+ "/RDMA+Verbs+API".

(** Four times of 2026-11-03, in microseconds, and their ISO forms. *)
Definition noon : Z := 1793707200000000.
Definition noon_iso : string := "2026-11-03T12:00:00".
Definition later : Z := noon + 2500000.
Definition later_iso : string := "2026-11-03T12:00:02.500000".
Definition minute : Z := later + 60000000.
Definition refreshed : Z := minute + 2500000.
Definition refreshed_iso : string := "2026-11-03T12:01:05".

Definition mlx5_html : string :=
  "<html><head><title>mlx5 platform</title></head><body><main><h1>MLX5</h1><div></div><p>Queue pairs</p></main></body></html>".
Definition mlx5_main : string := "<main><h1>MLX5</h1><div></div><p>Queue pairs</p></main>".
Definition mlx5_content : string := "# MLX5" +:+ newlines 2 +:+ "Queue pairs".

(** The record of [mlx5_url] written at the time with ISO form [iso]. *)
Definition mlx5_record (iso : string) : dict :=
  [("url", JStr mlx5_url); ("title", JStr "mlx5 platform");
   ("content", JStr mlx5_content); ("ts", JStr iso)].

(** [json.dumps(_, indent=2)] on a flat object of strings. *)
Fixpoint escape (s : string) : string :=
  match s with
  | EmptyString => EmptyString
  | String c s' =>
      if Ascii.eqb c nl then String backslash (String "n" (escape s'))
      else if Ascii.eqb c dquote then String backslash (String dquote (escape s'))
      else if Ascii.eqb c backslash then String backslash (String backslash (escape s'))
      else String c (escape s')
  end.

Definition dump_value (v : json) : string :=
  match v with
  | JStr s => q (escape s)
  | JBool true => "true"
  | JBool false => "false"
  | _ => "null"
  end.

Definition dumps (v : json) : string :=
  match v with
  | JObj members =>
      "{" +:+ str1 nl
      +:+ join ("," +:+ str1 nl)
            (map (fun kv => "  " +:+ q (escape kv.1) +:+ ": " +:+ dump_value kv.2) members)
      +:+ str1 nl +:+ "}"
  | _ => dump_value v
  end.

(** A record with a timestamp and nothing else, a document that is not a
    record at all, and a write that was cut short. *)
Definition bare_record : dict := [("ts", JStr noon_iso)].
Definition bare_text : string := "{" +:+ q "ts" +:+ ": " +:+ q noon_iso +:+ "}".
Definition list_text : string := "[]".
Definition torn_text : string := "{".

(** [json.loads] on the texts that occur. *)
Definition known_documents : list (string * json) :=
  [ (dumps (JObj (mlx5_record later_iso)), JObj (mlx5_record later_iso));
    (dumps (JObj (mlx5_record refreshed_iso)), JObj (mlx5_record refreshed_iso));
    (bare_text, JObj bare_record);
    (list_text, JArr []) ].

Inductive element : Type := Element (html : string) (str : option string).

Record document : Type := Document {
  doc_title : option element;
  doc_main : option element;
  doc_body : option element
}.

Definition parse (text : string) : document :=
  if String.eqb text mlx5_html then
    Document (Some (Element "<title>mlx5 platform</title>" (Some "mlx5 platform")))
             (Some (Element mlx5_main None))
             (Some (Element ("<body>" +:+ mlx5_main +:+ "</body>") None))
  else Document None None None.

#[export] Instance libs : Libs := {|
  md5_hexdigest url :=
    if String.eqb url mlx5_url then "3a0062277734e1c1ab98562db0755d4a"
    else if String.eqb url rdma_url then "9764ed676740365387f57818727f3665"
    else if String.eqb url verbs_url then "a1dc749751116a15d09cde7756387ed7"
    else rep "0" 32;
  json_loads txt :=
    match assoc txt known_documents with
    | Some v => inr v
    | None => inl JSONDecodeError
    end;
  json_dumps := dumps;
  fromisoformat s :=
    if String.eqb s noon_iso then Some (Naive noon)
    else if String.eqb s later_iso then Some (Naive later)
    else if String.eqb s refreshed_iso then Some (Naive refreshed)
    else None;
  isoformat t :=
    if t =? noon then noon_iso
    else if t =? later then later_iso
    else if t =? refreshed then refreshed_iso
    else EmptyString;
  http_get url t :=
    if String.eqb url mlx5_url && (t <? later + timedelta_hours 24)
    then Response (t + 2500000) (inr mlx5_html)
    else if String.eqb url rdma_url then Response (t + 100000) (inr EmptyString)
    else Response (t + 30000000) (inl "All connection attempts failed");
  soup := document;
  tag := element;
  BeautifulSoup := parse;
  decompose_all _ sp := sp;
  find_name n sp :=
    if String.eqb n "main" then doc_main sp
    else if String.eqb n "title" then doc_title sp
    else None;
  find_class _ _ := None;
  find_id _ _ := None;
  soup_body := doc_body;
  tag_string t := match t with Element _ s => s end;
  tag_str t := match t with Element h _ => h end;
  markdownify h :=
    if String.eqb h mlx5_main then "# MLX5" +:+ newlines 4 +:+ "Queue pairs"
    else EmptyString;
  py_repr _ := EmptyString
|}.

(** An empty cache at noon; the cache a minute after the record of
    [mlx5_url] was written; the same cache a day later. *)
Definition empty_world : World := mkWorld ∅ noon [].

Definition cached_world : World :=
  mkWorld {[ cache_path mlx5_url := dumps (JObj (mlx5_record later_iso)) ]} minute [].

Definition stale_world : World :=
  mkWorld {[ cache_path mlx5_url := dumps (JObj (mlx5_record later_iso)) ]}
          (minute + timedelta_hours 24) [].

(** Caches that hold something else than a full record. *)
Definition bare_world : World :=
  mkWorld {[ cache_path mlx5_url := bare_text ]} minute [].

Definition list_world : World :=
  mkWorld {[ cache_path mlx5_url := list_text ]} minute [].

Definition torn_world : World :=
  mkWorld {[ cache_path mlx5_url := torn_text ]} minute [].

End Demo.


(** ** More worlds to run the code in *)

Module Scenes.

(** A cache directory that holds the record of [mlx5_url], a bare record
    under another name, and a file that is not a cache record. *)
Definition mixed_world : World :=
  mkWorld (<[ "notes.txt" := "keep" ]>
           (<[ "0123456789ab.json" := Demo.bare_text ]>
            {[ cache_path (L := Demo.libs) Demo.mlx5_url
               := Demo.dumps (JObj (Demo.mlx5_record Demo.later_iso)) ]}))
          Demo.minute [].

End Scenes.

(** ** Vocabulary of the statements *)

(** [c in s] for a character. *)
Fixpoint has_char (c : ascii) (s : string) : bool :=
  match s with
  | EmptyString => false
  | String c' s' => Ascii.eqb c' c || has_char c s'
  end.

(** The exception a run ended with, if any. *)
Definition raised {A} (r : (exn + A) * World) : option exn :=
  match r.1 with inl e => Some e | inr _ => None end.

(** From [w] to [w'] the requests sent are some of [urls], in their order,
    and the files that are not cache files of [urls] are as they were. *)
Definition within {L : Libs} (urls : list string) (w w' : World) : Prop :=
  (exists sent, requests w' = requests w ++ sent /\ sublist sent urls)
  /\ forall p, (forall u, u ∈ urls -> p <> cache_path u) -> files w' !! p = files w !! p.

(** The first paragraph of [c] is a prefix of it and the others are parts
    of it. *)
Definition paragraphs_of (c : string) : Prop :=
  exists p0 ps,
    split_blank c = p0 :: ps
    /\ (exists b, c = p0 +:+ b)
    /\ forall p, In p ps -> exists a b, c = a +:+ p +:+ b.

(** A record from which [cache_valid] gets no timestamp: there is no file,
    [json.loads] raises on it an exception that [cache_valid] catches (it is
    not JSON), the JSON object has no member [ts], or the member is a string
    that is not an ISO timestamp. *)
Inductive unusable {L : Libs} (w : World) (path : string) : Prop :=
| unusable_absent :
    files w !! path = None -> unusable w path
| unusable_syntax txt e :
    files w !! path = Some txt -> json_loads txt = inl e ->
    cache_valid_handled e = true -> unusable w path
| unusable_no_ts txt d :
    files w !! path = Some txt -> json_loads txt = inr (JObj d) ->
    dict_get "ts" d = None -> unusable w path
| unusable_bad_ts txt d s :
    files w !! path = Some txt -> json_loads txt = inr (JObj d) ->
    dict_get "ts" d = Some (JStr s) -> fromisoformat s = None -> unusable w path.

(** A record with a timestamp [t]: a JSON object whose member [ts] is the
    ISO form of the naive time [t].  Nothing is asked of its other members. *)
Definition stamped {L : Libs} (w : World) (path : string) (t : Z) : Prop :=
  exists txt d s,
    files w !! path = Some txt /\ json_loads txt = inr (JObj d)
    /\ dict_get "ts" d = Some (JStr s) /\ fromisoformat s = Some (Naive t).

(** The world without the file [path]. *)
Definition forget (path : string) (w : World) : World :=
  mkWorld (delete path (files w)) (clock w) (requests w).

(** [w] and [w0] are the same but for the file [path], which either is the
    same in both or is an unusable record in [w] and no file in [w0]. *)
Definition absent_in {L : Libs} (path : string) (w w0 : World) : Prop :=
  forget path w = forget path w0
  /\ (files w !! path = files w0 !! path
      \/ (unusable w path /\ files w0 !! path = None)).

(** [op] cannot tell an unusable record at [path] from no file: from two
    such worlds it returns or raises the same, and ends in two such worlds. *)
Definition respects {L : Libs} {A} (path : string) (op : M A) : Prop :=
  forall w w0,
    absent_in path w w0 ->
    (op w).1 = (op w0).1 /\ absent_in path (op w).2 (op w0).2.

(** Run from [w], [op] does what it does without the file [path]: it
    returns or raises the same, and leaves the same state but for that
    file. *)
Definition as_absent {A} (path : string) (op : M A) (w : World) : Prop :=
  (op w).1 = (op (forget path w)).1
  /\ forget path (op w).2 = forget path (op (forget path w)).2.

(** What [normalize_topic] does to one character. *)
Definition normalize_char (c : ascii) : ascii :=
  let c := lower_char c in
  let c := if Ascii.eqb c "-" then "_"%char else c in
  if Ascii.eqb c " " then "_"%char else c.

(** The part of [fetch] that answers from the cache. *)
Definition read_cached {L : Libs} (url : string) : M dict :=
  txt <- read_text (cache_path url) ;;
  data <- lift (json_loads txt) ;;
  store_item data "cached" (JBool true).

(** A call of [fetch] failed: it raised, or it returned a dictionary with
    the key [error]. *)
Definition failed (r : exn + dict) : bool :=
  match r with
  | inl _ => true
  | inr d => dict_mem "error" d
  end.

(** The URLs a sweep over [topics] goes through, in the order of the two
    loops. *)
Definition topic_urls (topic : string) : list string :=
  match lookup_source topic with
  | Some src => map (fun page_path => base src +:+ page_path) (pages src)
  | None => []
  end.

Definition swept_urls (topics : list string) : list string :=
  flat_map topic_urls topics.

(** An entry of [results] made from a document: there is a call of [fetch]
    for its URL that returned a dictionary without error whose content has a
    paragraph that matches, and the entry holds the first two of the matching
    paragraphs, in the order of the document. *)
Definition documented {L : Libs} (query_lower : string) (h : hit) : Prop :=
  exists (w0 w1 : World) (data : dict) (content : string),
    fetch (hit_url h) false w0 = (inr data, w1)
    /\ dict_mem "error" data = false
    /\ dict_get_default "content" (JStr EmptyString) data = JStr content
    /\ matching_paragraphs query_lower content <> []
    /\ hit_matches h = firstn 2 (matching_paragraphs query_lower content).

(** * Properties *)

(** ** Strings *)

Section TextFacts.

Local Open Scope nat_scope.

Lemma app_cons c s t : String c s +:+ t = String c (s +:+ t).
Proof. reflexivity. Qed.

Lemma app_empty_l s : EmptyString +:+ s = s.
Proof. reflexivity. Qed.

Lemma app_empty_r s : s +:+ EmptyString = s.
Proof. induction s as [|c s IH]; [done|]. by rewrite app_cons, IH. Qed.

Lemma app_assoc' s t u : (s +:+ t) +:+ u = s +:+ t +:+ u.
Proof. induction s as [|c s IH]; [done|]. by rewrite !app_cons, IH. Qed.

Lemma is_nl_true c : is_nl c = true -> c = nl.
Proof. apply Ascii.eqb_eq. Qed.

Lemma is_nl_nl : is_nl nl = true.
Proof. reflexivity. Qed.

Lemma newlines_S n : newlines (S n) = String nl (newlines n).
Proof. reflexivity. Qed.

Lemma newlines_shift n s : newlines n +:+ String nl s = newlines (S n) +:+ s.
Proof.
  induction n as [|n IH]; [done|].
  rewrite (newlines_S (S n)), !app_cons, <- IH. by rewrite newlines_S, app_cons.
Qed.

Lemma squeeze_small n : n < 3 -> squeeze n = n.
Proof. intros Hn. unfold squeeze. destruct (Nat.leb_spec 3 n); [lia|done]. Qed.

Lemma squeeze_le n : squeeze n <= 2.
Proof. unfold squeeze. destruct (Nat.leb_spec 3 n); lia. Qed.

Lemma squeeze_pos n : 0 < n -> 0 < squeeze n.
Proof. unfold squeeze. destruct (Nat.leb_spec 3 n); lia. Qed.

(** *** The scan and the one-pass formulation agree *)

Lemma collapse_runs_newlines p n s :
  collapse_runs p (newlines n +:+ s) = collapse_runs (p + n) s.
Proof.
  revert p. induction n as [|n IH]; intros p.
  - by rewrite Nat.add_0_r.
  - rewrite newlines_S, app_cons. cbn [collapse_runs]. rewrite is_nl_nl, IH. f_equal. lia.
Qed.

Lemma collapse_runs_flush p s :
  newline_prefix s = 0 ->
  collapse_runs p s = newlines (squeeze p) +:+ collapse_runs 0 s.
Proof.
  destruct s as [|c s]; simpl.
  - intros _. by rewrite app_empty_r.
  - destruct (is_nl c); [done|]. intros _. done.
Qed.

Lemma collapse_runs_skip p s :
  collapse_runs p s
  = collapse_runs (p + newline_prefix s) (drop (newline_prefix s) s).
Proof.
  revert p. induction s as [|c s IH]; intros p; simpl.
  - by rewrite Nat.add_0_r.
  - destruct (is_nl c) eqn:Hc; simpl.
    + rewrite IH. f_equal. lia.
    + by rewrite Hc, Nat.add_0_r.
Qed.

Lemma newline_prefix_drop s : newline_prefix (drop (newline_prefix s) s) = 0.
Proof.
  induction s as [|c s IH]; [done|]. simpl.
  destruct (is_nl c) eqn:Hc; simpl; [done|]. by rewrite Hc.
Qed.

Lemma collapse_runs_small p s :
  p + newline_prefix s < 3 ->
  collapse_runs p s = newlines p +:+ collapse_runs 0 s.
Proof.
  revert p. induction s as [|c s IH]; intros p Hp; simpl in *.
  - rewrite squeeze_small by lia. by rewrite app_empty_r.
  - destruct (is_nl c) eqn:Hc.
    + apply is_nl_true in Hc as ->.
      rewrite (IH (S p)) by lia. rewrite (IH 1) by lia.
      by rewrite <- newlines_shift.
    + by rewrite squeeze_small by lia.
Qed.

Lemma length_drop_le n s : String.length (drop n s) <= String.length s - n.
Proof.
  revert s. induction n as [|n IH]; intros [|c s]; simpl; try lia. apply IH.
Qed.

(** Any fuel that covers the length of the text gives the same result. *)
Lemma re_sub_scan_runs fuel s :
  String.length s <= fuel -> re_sub_scan fuel s = collapse_runs 0 s.
Proof.
  revert s. induction fuel as [|fuel IH]; intros s Hlen.
  - destruct s; [done|simpl in Hlen; lia].
  - destruct s as [|c s]; [done|].
    cbn [re_sub_scan].
    pose proof (length_drop_le (newline_prefix (String c s)) (String c s)) as Hd.
    remember (newline_prefix (String c s)) as n eqn:En.
    cbn [String.length] in Hlen, Hd.
    destruct (Nat.leb_spec 3 n) as [Hn|Hn].
    + rewrite IH by lia.
      rewrite (collapse_runs_skip 0 (String c s)), <- En.
      rewrite Nat.add_0_l.
      rewrite (collapse_runs_flush n) by (rewrite En; apply newline_prefix_drop).
      unfold squeeze.
      destruct (Nat.leb_spec 3 n); [done|lia].
    + rewrite IH by lia.
      simpl in *. destruct (is_nl c) eqn:Hc; [|done].
      apply is_nl_true in Hc as ->.
      by rewrite (collapse_runs_small 1) by lia.
Qed.

Lemma collapse_newlines_runs s : collapse_newlines s = collapse_runs 0 s.
Proof. apply re_sub_scan_runs. lia. Qed.

Lemma collapse_newlines_fuel fuel s :
  String.length s <= fuel -> re_sub_scan fuel s = collapse_newlines s.
Proof. intros. by rewrite collapse_newlines_runs, re_sub_scan_runs. Qed.

End TextFacts.

Section CollapseFacts.

Local Open Scope nat_scope.

(** *** What happens to one run *)

Lemma collapse_runs_app p a x :
  ends_with_nl a = false -> (a = EmptyString -> p = 0) ->
  collapse_runs p (a +:+ x) = collapse_runs p a +:+ collapse_runs 0 x.
Proof.
  revert p. induction a as [|c a IH]; intros p Hend Hp.
  - by rewrite Hp.
  - rewrite app_cons. cbn [collapse_runs]. destruct a as [|c' a].
    + simpl in Hend. rewrite Hend. rewrite app_empty_l.
      change (collapse_runs 0 EmptyString) with EmptyString.
      by rewrite app_assoc', app_cons.
    + assert (Hend' : ends_with_nl (String c' a) = false) by exact Hend.
      destruct (is_nl c).
      * by apply IH.
      * rewrite (IH 0) by done. by rewrite app_assoc', app_cons.
Qed.

Lemma starts_with_nl_prefix b : starts_with_nl b = false -> newline_prefix b = 0.
Proof. destruct b as [|c b]; simpl; [done|]. by intros ->. Qed.

Lemma collapse_one_run a n b :
  ends_with_nl a = false -> starts_with_nl b = false ->
  collapse_newlines (a +:+ newlines n +:+ b)
  = collapse_newlines a +:+ newlines (squeeze n) +:+ collapse_newlines b.
Proof.
  intros Ha Hb. rewrite !collapse_newlines_runs.
  rewrite collapse_runs_app by done. f_equal.
  rewrite collapse_runs_newlines. simpl.
  by apply collapse_runs_flush, starts_with_nl_prefix.
Qed.

(** *** Texts without a long run are left alone; no long run is left *)

Lemma collapse_runs_id p s :
  newline_run_max p s < 3 -> collapse_runs p s = newlines p +:+ s.
Proof.
  revert p. induction s as [|c s IH]; intros p Hp; simpl in *.
  - by rewrite squeeze_small, app_empty_r.
  - destruct (is_nl c) eqn:Hc.
    + apply is_nl_true in Hc as ->. rewrite IH by done. by rewrite newlines_shift.
    + rewrite squeeze_small by lia. by rewrite (IH 0) by lia.
Qed.

Lemma newline_run_max_newlines q k s :
  newline_run_max q (newlines k +:+ s) = newline_run_max (q + k) s.
Proof.
  revert q. induction k as [|k IH]; intros q.
  - by rewrite Nat.add_0_r.
  - rewrite newlines_S, app_cons. cbn [newline_run_max].
    rewrite is_nl_nl, IH. f_equal. lia.
Qed.

Lemma collapse_runs_bounded p s : newline_run_max 0 (collapse_runs p s) <= 2.
Proof.
  revert p. induction s as [|c s IH]; intros p; cbn [collapse_runs].
  - rewrite <- (app_empty_r (newlines _)), newline_run_max_newlines.
    simpl. apply squeeze_le.
  - destruct (is_nl c) eqn:Hc; [apply IH|].
    rewrite newline_run_max_newlines. cbn [newline_run_max]. rewrite Hc.
    pose proof (squeeze_le p). pose proof (IH 0). simpl. lia.
Qed.

Lemma collapse_newlines_id s :
  longest_newline_run s < 3 -> collapse_newlines s = s.
Proof. intros Hs. rewrite collapse_newlines_runs. by apply collapse_runs_id. Qed.

Lemma collapse_newlines_bounded s : longest_newline_run (collapse_newlines s) <= 2.
Proof. rewrite collapse_newlines_runs. apply collapse_runs_bounded. Qed.

Lemma collapse_newlines_idem s :
  collapse_newlines (collapse_newlines s) = collapse_newlines s.
Proof.
  apply collapse_newlines_id. pose proof (collapse_newlines_bounded s). lia.
Qed.

(** *** Lines *)

Lemma split_char_nonempty sep s : split_char sep s <> [].
Proof.
  destruct s as [|c s]; [done|]. simpl.
  destruct (Ascii.eqb c sep); [done|]. by destruct (split_char sep s).
Qed.

Lemma lines_nl s : lines (String nl s) = EmptyString :: lines s.
Proof. reflexivity. Qed.

Lemma lines_other c s :
  is_nl c = false -> lines (String c s) = String c (first_line s) :: rest_lines s.
Proof.
  intros Hc. unfold first_line, rest_lines, lines. simpl.
  fold (is_nl c). rewrite Hc.
  pose proof (split_char_nonempty nl s). by destruct (split_char nl s).
Qed.

Lemma first_line_other c s :
  is_nl c = false -> first_line (String c s) = String c (first_line s).
Proof. intros Hc. unfold first_line at 1. by rewrite lines_other. Qed.

Lemma rest_lines_other c s :
  is_nl c = false -> rest_lines (String c s) = rest_lines s.
Proof. intros Hc. unfold rest_lines at 1. by rewrite lines_other. Qed.

Lemma nonblank_newlines k s : nonblank_lines (newlines k +:+ s) = nonblank_lines s.
Proof.
  induction k as [|k IH]; [done|].
  rewrite newlines_S, app_cons. unfold nonblank_lines in *. by rewrite lines_nl.
Qed.

Lemma first_line_newlines k s : first_line (newlines (S k) +:+ s) = EmptyString.
Proof. reflexivity. Qed.

Lemma rest_lines_newlines k s :
  List.filter (fun l => negb (is_blank l)) (rest_lines (newlines (S k) +:+ s))
  = nonblank_lines s.
Proof.
  rewrite newlines_S, app_cons. unfold rest_lines. rewrite lines_nl. simpl.
  apply nonblank_newlines.
Qed.

Lemma nonblank_other c s :
  is_nl c = false ->
  nonblank_lines (String c s)
  = String c (first_line s)
    :: List.filter (fun l => negb (is_blank l)) (rest_lines s).
Proof. intros Hc. unfold nonblank_lines. by rewrite lines_other. Qed.

Lemma collapse_runs_lines p s :
  first_line (collapse_runs p s) = first_line (newlines p +:+ s)
  /\ List.filter (fun l => negb (is_blank l)) (rest_lines (collapse_runs p s))
     = List.filter (fun l => negb (is_blank l)) (rest_lines (newlines p +:+ s)).
Proof.
  revert p. induction s as [|c s IH]; intros p; cbn [collapse_runs].
  - destruct p as [|p]; [done|].
    destruct (squeeze (S p)) as [|j] eqn:Hj.
    { pose proof (squeeze_pos (S p)). lia. }
    rewrite <- (app_empty_r (newlines (S j))).
    by rewrite !first_line_newlines, !rest_lines_newlines.
  - destruct (is_nl c) eqn:Hc.
    + apply is_nl_true in Hc as ->. rewrite newlines_shift. apply IH.
    + destruct (IH 0) as [IH1 IH2]. rewrite app_empty_l in IH1, IH2.
      destruct p as [|p].
      * change (squeeze 0) with 0. change (newlines 0) with EmptyString.
        rewrite !app_empty_l, !first_line_other, !rest_lines_other by done.
        by rewrite IH1, IH2.
      * destruct (squeeze (S p)) as [|j] eqn:Hj.
        { pose proof (squeeze_pos (S p)). lia. }
        rewrite !first_line_newlines, !rest_lines_newlines.
        by rewrite !nonblank_other, IH1, IH2.
Qed.

End CollapseFacts.

(** ** Collapsing of newline runs *)

Example lower_RDMA : lower "RDMA" = "rdma".
Proof. reflexivity. Qed.

Example split_blank_ex :
  split_blank ("a" +:+ newlines 3 +:+ "b" +:+ newlines 2 +:+ "c")
  = ["a"; String nl "b"; "c"].
Proof. reflexivity. Qed.

Example collapse_ex :
  collapse_newlines ("a" +:+ newlines 5 +:+ "b" +:+ newlines 2 +:+ "c" +:+ newlines 3)
  = "a" +:+ newlines 2 +:+ "b" +:+ newlines 2 +:+ "c" +:+ newlines 2.
Proof. reflexivity. Qed.

Lemma lines_first_rest s : lines s = first_line s :: rest_lines s.
Proof.
  unfold first_line, rest_lines, lines.
  pose proof (split_char_nonempty nl s). by destruct (split_char nl s).
Qed.

Lemma collapse_newlines_nonblank s :
  nonblank_lines (collapse_newlines s) = nonblank_lines s.
Proof.
  rewrite collapse_newlines_runs. unfold nonblank_lines.
  rewrite (lines_first_rest (collapse_runs 0 s)), (lines_first_rest s).
  destruct (collapse_runs_lines 0 s) as [H1 H2]. rewrite app_empty_l in H1, H2.
  simpl. by rewrite H1, H2.
Qed.

(** C2, as stated, fails on two consecutive blank lines.  The text
    [a, newline, newline, newline, b] has the lines [a], blank, blank, [b]:
    its longest run of blank lines has length 2, not 3 or more, and yet the
    collapsing changes it; and the run of three newline characters is
    replaced by two newline characters, not by one. *)
Lemma collapse_two_blank_lines :
  let s := "a" +:+ newlines 3 +:+ "b" in
  lines s = ["a"; EmptyString; EmptyString; "b"]
  /\ blank_run s = 2%nat
  /\ collapse_newlines s = "a" +:+ newlines 2 +:+ "b"
  /\ collapse_newlines s <> s
  /\ collapse_newlines s <> "a" +:+ newlines 1 +:+ "b".
Proof. repeat split; done. Qed.

(** C2 (amended): the collapsing replaces each maximal run of 3 or more
    consecutive newline characters (that is, of 2 or more blank lines) by
    exactly two newline characters (one blank line), and copies shorter runs:
    a run of [n] newlines between a text [a] that does not end in a newline
    and a text [b] that does not start with one comes out as 2 newlines when
    [3 <= n] and as [n] newlines otherwise, [a] and [b] being collapsed on
    their own.  The lines that are not blank are the same, in the same order;
    a text with no run of 3 newlines is returned as it is; the result has no
    run of 3 newlines; and collapsing is idempotent. *)
Theorem collapse_newlines_spec (a b : string) (n : nat) :
  ends_with_nl a = false ->
  starts_with_nl b = false ->
  let s := a +:+ newlines n +:+ b in
  collapse_newlines s
  = collapse_newlines a +:+ newlines (if (3 <=? n)%nat then 2 else n)
    +:+ collapse_newlines b
  /\ nonblank_lines (collapse_newlines s) = nonblank_lines s
  /\ ((longest_newline_run s < 3)%nat -> collapse_newlines s = s)
  /\ (longest_newline_run (collapse_newlines s) <= 2)%nat
  /\ collapse_newlines (collapse_newlines s) = collapse_newlines s.
Proof.
  intros Ha Hb s. split; [|split; [|split; [|split]]].
  - by apply collapse_one_run.
  - apply collapse_newlines_nonblank.
  - apply collapse_newlines_id.
  - apply collapse_newlines_bounded.
  - apply collapse_newlines_idem.
Qed.

Lemma collapse_newlines_spec_witness :
  ends_with_nl "a" = false /\ starts_with_nl "b" = false
  /\ collapse_newlines ("a" +:+ newlines 5 +:+ "b")
     = collapse_newlines "a" +:+ newlines 2 +:+ collapse_newlines "b".
Proof.
  split; [reflexivity|split; [reflexivity|]].
  apply (collapse_newlines_spec "a" "b" 5); reflexivity.
Defined.

(** ** The cache store *)

Section CacheFacts.

Context {L : Libs}.

Lemma path_exists_some path txt w :
  files w !! path = Some txt -> path_exists path w = (inr true, w).
Proof. intros Hf. unfold path_exists. by rewrite Hf. Qed.

Lemma path_exists_none path w :
  files w !! path = None -> path_exists path w = (inr false, w).
Proof. intros Hf. unfold path_exists. by rewrite Hf. Qed.

(** [cache_valid] by cases on what is on disk; it never changes the world. *)
Lemma cache_valid_cases path w :
  cache_valid path w =
  (match files w !! path with
   | None => inr false
   | Some txt =>
       match json_loads txt with
       | inl e => if cache_valid_handled e then inr false else inl e
       | inr (JObj d) =>
           match dict_get "ts" d with
           | None => inr false
           | Some (JStr s) =>
               match fromisoformat s with
               | None => inr false
               | Some (Naive t) => inr (clock w - t <? timedelta_hours CACHE_HOURS)
               | Some (Aware _ _) => inl TypeError
               end
           | Some _ => inl TypeError
           end
       | inr _ => inl TypeError
       end
   end, w).
Proof.
  unfold cache_valid, bind.
  destruct (files w !! path) as [txt|] eqn:Hf.
  - rewrite (path_exists_some _ _ _ Hf). cbn [negb].
    unfold try_except, bind, read_text. rewrite Hf.
    destruct (json_loads txt) as [e|data]; [by destruct e|].
    cbn [lift of_option ret datetime_now].
    destruct data as [| | | |l|d]; try done.
    cbn [subscript]. destruct (dict_get "ts" d) as [v|]; [|done].
    cbn [of_option ret].
    destruct v as [| | |s| |]; try done.
    cbn [datetime_fromisoformat]. destruct (fromisoformat s) as [t|]; [|done].
    by destruct t.
  - by rewrite (path_exists_none _ _ Hf).
Qed.

Lemma cache_valid_world path w : (cache_valid path w).2 = w.
Proof. by rewrite cache_valid_cases. Qed.

Lemma cache_valid_unusable path w :
  unusable w path -> cache_valid path w = (inr false, w).
Proof.
  rewrite cache_valid_cases.
  intros [Hf|txt e Hf Hj He|txt d Hf Hj Ht|txt d s Hf Hj Ht Hs]; rewrite Hf; try done;
    rewrite Hj; try (by rewrite He); rewrite Ht; try done; by rewrite Hs.
Qed.

Lemma cache_valid_stamped path w t :
  stamped w path t ->
  cache_valid path w
  = (inr (bool_decide (clock w - t < timedelta_hours CACHE_HOURS)), w).
Proof.
  intros (txt & d & s & Hf & Hj & Ht & Hs).
  rewrite cache_valid_cases, Hf, Hj, Ht, Hs. do 2 f_equal.
  destruct (Z.ltb_spec (clock w - t) (timedelta_hours CACHE_HOURS)).
  - by rewrite bool_decide_eq_true_2.
  - rewrite bool_decide_eq_false_2; [done|lia].
Qed.

End CacheFacts.

(** ** The fetcher *)

Section FetchFacts.

Context {L : Libs}.

Lemma dict_get_set k v d : dict_get k (dict_set k v d) = Some v.
Proof.
  induction d as [|[k' v'] d IH]; simpl.
  - by rewrite String.eqb_refl.
  - destruct (String.eqb k k') eqn:Hk; simpl; rewrite ?String.eqb_refl, ?Hk; done.
Qed.


Lemma read_cached_world url w : (read_cached url w).2 = w.
Proof.
  unfold read_cached, bind, read_text.
  destruct (files w !! cache_path url) as [txt|]; [|done].
  destruct (json_loads txt) as [e|data]; [done|].
  by destruct data.
Qed.

(** A forced fetch, by cases on what the request and the page give. *)
Lemma fetch_forced url w :
  fetch url true w =
  match outcome (http_get url (clock w)) with
  | inl e => (inr [("error", JStr e)], after_get url w)
  | inr text =>
      let sp := decompose_all CHROME (BeautifulSoup text) in
      match select_main sp with
      | None => (inr [("error", JStr "No content found")], after_get url w)
      | Some main =>
          let data := new_record url (page_title url sp) (page_content main)
                        (finished (http_get url (clock w))) in
          (inr (data ++ [("cached", JBool false)]),
           mkWorld (<[cache_path url := json_dumps (JObj data)]> (files w))
                   (finished (http_get url (clock w))) (requests w ++ [url]))
      end
  end.
Proof.
  unfold fetch, bind. cbn [negb ret client_get].
  destruct (outcome (http_get url (clock w))) as [e|text]; [done|].
  cbv zeta. by destruct (select_main _).
Qed.

(** An unforced fetch, by cases on what [cache_valid] says. *)
Lemma fetch_unforced url w :
  fetch url false w =
  match (cache_valid (cache_path url) w).1 with
  | inl e => (inl e, w)
  | inr true => read_cached url w
  | inr false => fetch url true w
  end.
Proof.
  unfold fetch at 1. unfold bind at 1. cbn [negb].
  pose proof (cache_valid_world (cache_path url) w) as Hw.
  destruct (cache_valid (cache_path url) w) as [[e|[|]] w0]; simpl in Hw; subst w0.
  - reflexivity.
  - reflexivity.
  - reflexivity.
Qed.

Lemma fetch_miss url w :
  cache_valid (cache_path url) w = (inr false, w) ->
  fetch url false w = fetch url true w.
Proof. intros Hv. by rewrite fetch_unforced, Hv. Qed.

Lemma fetch_hit url w :
  cache_valid (cache_path url) w = (inr true, w) ->
  exists txt d,
    files w !! cache_path url = Some txt /\ json_loads txt = inr (JObj d)
    /\ fetch url false w = (inr (dict_set "cached" (JBool true) d), w).
Proof.
  intros Hv. rewrite fetch_unforced, Hv. cbn [fst].
  rewrite cache_valid_cases in Hv.
  unfold read_cached, bind, read_text.
  destruct (files w !! cache_path url) as [txt|]; [|done].
  destruct (json_loads txt) as [e|[| | | | |d]] eqn:Hj; try done; try (by destruct (cache_valid_handled e)).
  by exists txt, d.
Qed.

(** A forced fetch never touches a file when it fails, and its result is
    never tagged as cached. *)
Lemma fetch_forced_failed url w :
  failed (fetch url true w).1 = true ->
  (fetch url true w).2 = after_get url w.
Proof.
  rewrite fetch_forced.
  destruct (outcome (http_get url (clock w))) as [e|text]; [done|].
  cbv zeta. by destruct (select_main _).
Qed.

Lemma fetch_forced_requests url w :
  requests (fetch url true w).2 = requests w ++ [url]
  /\ clock (fetch url true w).2 = finished (http_get url (clock w)).
Proof.
  rewrite fetch_forced.
  destruct (outcome (http_get url (clock w))) as [e|text]; [done|].
  cbv zeta. by destruct (select_main _).
Qed.

End FetchFacts.

(** ** Validity of a record *)

Example ttl_microseconds : timedelta_hours CACHE_HOURS = 86400000000.
Proof. reflexivity. Qed.

(** C4: a stored record with timestamp [t] is reported valid exactly when
    [now - t] is less than 24 hours, whatever the time of reading; with the
    same files on disk, a reading at which the record is 24 hours old or
    older reports it invalid. *)
Theorem cache_valid_iff_fresh {L : Libs} (path : string) (t : Z) (w : World) :
  stamped w path t ->
  exists b : bool,
    cache_valid path w = (inr b, w)
    /\ (b = true <-> clock w - t < timedelta_hours 24)
    /\ forall w',
         files w' = files w ->
         timedelta_hours 24 <= clock w' - t ->
         cache_valid path w' = (inr false, w').
Proof.
  intros Hst.
  exists (bool_decide (clock w - t < timedelta_hours CACHE_HOURS)).
  split; [by apply cache_valid_stamped|]. split.
  - by rewrite bool_decide_eq_true.
  - intros w' Hf Hold.
    assert (Hst' : stamped w' path t).
    { destruct Hst as (txt & d & s & Hst). exists txt, d, s. by rewrite Hf. }
    rewrite (cache_valid_stamped _ _ _ Hst').
    rewrite bool_decide_eq_false_2; [done|]. unfold CACHE_HOURS. lia.
Qed.

Section DemoValidity.

#[local] Existing Instance Demo.libs.

Example demo_dumps :
  Demo.dumps (JObj (Demo.mlx5_record Demo.later_iso))
  = "{" +:+ str1 nl
    +:+ "  " +:+ Demo.q "url" +:+ ": " +:+ Demo.q Demo.mlx5_url +:+ "," +:+ str1 nl
    +:+ "  " +:+ Demo.q "title" +:+ ": " +:+ Demo.q "mlx5 platform" +:+ "," +:+ str1 nl
    +:+ "  " +:+ Demo.q "content" +:+ ": " +:+ Demo.q "# MLX5\n\nQueue pairs" +:+ "," +:+ str1 nl
    +:+ "  " +:+ Demo.q "ts" +:+ ": " +:+ Demo.q "2026-11-03T12:00:02.500000" +:+ str1 nl
    +:+ "}".
Proof. reflexivity. Qed.

Lemma demo_stamped (w : World) :
  files w !! cache_path Demo.mlx5_url
  = Some (Demo.dumps (JObj (Demo.mlx5_record Demo.later_iso))) ->
  stamped w (cache_path Demo.mlx5_url) Demo.later.
Proof.
  intros Hf.
  exists (Demo.dumps (JObj (Demo.mlx5_record Demo.later_iso))),
         (Demo.mlx5_record Demo.later_iso), Demo.later_iso.
  by repeat split.
Qed.

Lemma cache_valid_iff_fresh_witness :
  stamped Demo.cached_world (cache_path Demo.mlx5_url) Demo.later
  /\ cache_valid (cache_path Demo.mlx5_url) Demo.cached_world
     = (inr true, Demo.cached_world)
  /\ cache_valid (cache_path Demo.mlx5_url) Demo.stale_world
     = (inr false, Demo.stale_world).
Proof.
  assert (Hst : stamped Demo.cached_world (cache_path Demo.mlx5_url) Demo.later)
    by (apply demo_stamped; reflexivity).
  split; [exact Hst|].
  destruct (cache_valid_iff_fresh _ _ _ Hst) as (b & Hb & Hiff & Hold).
  split.
  - rewrite Hb. f_equal. f_equal. apply Hiff. reflexivity.
  - apply Hold; [reflexivity|]. vm_compute. discriminate.
Defined.

End DemoValidity.

(** ** What a fetch returns *)

Section FetchResults.

Context {L : Libs}.

(** A forced fetch returns an error dictionary, or writes a new record and
    returns it tagged as not cached. *)
Lemma fetch_forced_result url w :
  (exists e, fetch url true w = (inr [("error", JStr e)], after_get url w))
  \/ (exists text main,
        outcome (http_get url (clock w)) = inr text
        /\ select_main (decompose_all CHROME (BeautifulSoup text)) = Some main
        /\ let record :=
             new_record url (page_title url (decompose_all CHROME (BeautifulSoup text)))
               (page_content main) (finished (http_get url (clock w))) in
           fetch url true w
           = (inr (record ++ [("cached", JBool false)]),
              mkWorld (<[cache_path url := json_dumps (JObj record)]> (files w))
                      (finished (http_get url (clock w))) (requests w ++ [url]))).
Proof.
  rewrite fetch_forced.
  destruct (outcome (http_get url (clock w))) as [e|text] eqn:Ho; [left; by exists e|].
  cbv zeta.
  destruct (select_main (decompose_all CHROME (BeautifulSoup text))) as [main|] eqn:Hm.
  - right. by exists text, main.
  - left. by eexists.
Qed.

Lemma read_cached_tagged url w d w1 :
  read_cached url w = (inr d, w1) -> dict_get "cached" d = Some (JBool true).
Proof.
  unfold read_cached, bind, read_text.
  destruct (files w !! cache_path url) as [txt|]; [|done].
  destruct (json_loads txt) as [e|[| | | | |d0]]; try done.
  cbn. intros [= <- _]. apply dict_get_set.
Qed.

(** A failed fetch leaves every file as it was. *)
Lemma fetch_failed_files url refresh w :
  failed (fetch url refresh w).1 = true -> files (fetch url refresh w).2 = files w.
Proof.
  destruct refresh.
  - intros Hf. by rewrite fetch_forced_failed.
  - rewrite fetch_unforced.
    destruct (cache_valid (cache_path url) w).1 as [e|[|]]; [done| |].
    + intros _. by rewrite read_cached_world.
    + intros Hf. by rewrite fetch_forced_failed.
Qed.

End FetchResults.

(** ** Records that cannot be used *)


(** ** Forced refresh, round trip, failures *)

(** C7: with a valid cache entry for [url], a forced fetch does not answer
    from the cache, as an unforced one does: it sends the request, and its
    result is never tagged as cached; when the page is retrieved and has a
    content region, the cache file is overwritten with the new record and the
    record is returned tagged as not cached; otherwise the files are left as
    they were. *)
Theorem forced_refresh_bypasses_cache {L : Libs} (url : string) (w : World) :
  cache_valid (cache_path url) w = (inr true, w) ->
  (exists d0, fetch url false w = (inr d0, w)
              /\ dict_get "cached" d0 = Some (JBool true))
  /\ exists d w',
       fetch url true w = (inr d, w')
       /\ requests w' = requests w ++ [url]
       /\ dict_get "cached" d <> Some (JBool true)
       /\ (failed (inr d) = true -> files w' = files w)
       /\ (failed (inr d) = false ->
           exists text main,
             outcome (http_get url (clock w)) = inr text
             /\ select_main (decompose_all CHROME (BeautifulSoup text)) = Some main
             /\ let record :=
                  new_record url
                    (page_title url (decompose_all CHROME (BeautifulSoup text)))
                    (page_content main) (clock w') in
                d = record ++ [("cached", JBool false)]
                /\ files w' = <[cache_path url := json_dumps (JObj record)]> (files w)).
Proof.
  intros Hv. split.
  - destruct (fetch_hit _ _ Hv) as (txt & d0 & _ & _ & Hf).
    eexists. split; [exact Hf|]. apply dict_get_set.
  - destruct (fetch_forced_result url w) as [(e & He)|(text & main & Ho & Hm & Hs)].
    + eexists _, _. split; [exact He|]. repeat split; try done.
    + cbv zeta in Hs. eexists _, _. split; [exact Hs|]. repeat split; try done.
      intros _. by exists text, main.
Qed.

Lemma forced_refresh_bypasses_cache_witness :
  cache_valid (L := Demo.libs) (cache_path (L := Demo.libs) Demo.mlx5_url) Demo.cached_world
  = (inr true, Demo.cached_world)
  /\ fetch (L := Demo.libs) Demo.mlx5_url false Demo.cached_world
     = (inr (Demo.mlx5_record Demo.later_iso ++ [("cached", JBool true)]),
        Demo.cached_world)
  /\ fetch (L := Demo.libs) Demo.mlx5_url true Demo.cached_world
     = (inr (Demo.mlx5_record Demo.refreshed_iso ++ [("cached", JBool false)]),
        mkWorld {[ cache_path (L := Demo.libs) Demo.mlx5_url
                   := Demo.dumps (JObj (Demo.mlx5_record Demo.refreshed_iso)) ]}
                Demo.refreshed [Demo.mlx5_url]).
Proof.
  assert (Hv : cache_valid (L := Demo.libs) (cache_path (L := Demo.libs) Demo.mlx5_url)
                 Demo.cached_world = (inr true, Demo.cached_world)) by reflexivity.
  split; [exact Hv|].
  destruct (forced_refresh_bypasses_cache (L := Demo.libs) Demo.mlx5_url
              Demo.cached_world Hv) as [(d0 & Hd0 & _) (d & w' & Hd & _)].
  split.
  - rewrite Hd0. vm_compute in Hd0. by simplify_eq.
  - rewrite Hd. vm_compute in Hd. simplify_eq. by vm_compute.
Defined.

(** C9: a fetch that fails, by raising or by returning an error dictionary,
    writes nothing: every file of the cache, the record of the URL and an
    expired one among them, is as it was before the call. *)
Theorem failed_fetch_keeps_cache {L : Libs} (url : string) (refresh : bool) (w : World) :
  failed (fetch url refresh w).1 = true ->
  files (fetch url refresh w).2 = files w
  /\ files (fetch url refresh w).2 !! cache_path url = files w !! cache_path url.
Proof. intros Hf. rewrite fetch_failed_files by done. done. Qed.

Lemma failed_fetch_keeps_cache_witness :
  cache_valid (L := Demo.libs) (cache_path (L := Demo.libs) Demo.mlx5_url) Demo.stale_world
  = (inr false, Demo.stale_world)
  /\ (fetch (L := Demo.libs) Demo.mlx5_url false Demo.stale_world).1
     = inr [("error", JStr "All connection attempts failed")]
  /\ files (fetch (L := Demo.libs) Demo.mlx5_url false Demo.stale_world).2
       !! cache_path (L := Demo.libs) Demo.mlx5_url
     = Some (Demo.dumps (JObj (Demo.mlx5_record Demo.later_iso))).
Proof.
  split; [reflexivity|]. split; [reflexivity|].
  destruct (failed_fetch_keeps_cache (L := Demo.libs) Demo.mlx5_url false
              Demo.stale_world) as [_ ->]; reflexivity.
Defined.

(** ** The sweep of a search *)

Section SearchFacts.

Context {L : Libs}.

Lemma assoc_none {A} k (l : list (string * A)) : assoc k l = None <-> ~ In k (map fst l).
Proof.
  induction l as [|[k' v] l IH]; simpl; [tauto|].
  destruct (String.eqb_spec k k') as [->|Hne]; [split; [done|tauto]|].
  rewrite IH. split; [intros Hn [Heq|Hin]; [congruence|tauto]|tauto].
Qed.

Lemma assoc_some {A} k (l : list (string * A)) : In k (map fst l) -> exists v, assoc k l = Some v.
Proof.
  intros Hin. destruct (assoc k l) as [v|] eqn:Ha; [by exists v|].
  by apply assoc_none in Ha.
Qed.

Lemma search_topics_skip q topic rest acc w :
  lookup_source topic = None ->
  search_topics q (topic :: rest) acc w = search_topics q rest acc w.
Proof. intros Hl. simpl. by rewrite Hl. Qed.

Lemma search_topics_app q l1 l2 acc w :
  search_topics q (l1 ++ l2) acc w
  = (acc' <- search_topics q l1 acc ;; search_topics q l2 acc') w.
Proof.
  revert acc w. induction l1 as [|t l1 IH]; intros acc w.
  - unfold bind. reflexivity.
  - simpl. destruct (lookup_source t) as [src|]; [|apply IH].
    unfold bind in *.
    destruct (search_pages q src (pages src) acc w) as [[e|acc1] w1]; [done|].
    apply IH.
Qed.

Lemma search_pages_app q src l1 l2 acc w :
  search_pages q src (l1 ++ l2) acc w
  = (acc' <- search_pages q src l1 acc ;; search_pages q src l2 acc') w.
Proof.
  revert acc w. induction l1 as [|page l1 IH]; intros acc w.
  - unfold bind. reflexivity.
  - simpl. unfold bind in *.
    destruct (search_page q src page acc w) as [[e|acc1] w1]; [done|].
    apply IH.
Qed.

(** One page adds at most one entry, and the entry is made from the page. *)
Lemma search_page_adds q src page acc w acc' w' :
  search_page q src page acc w = (inr acc', w') ->
  acc' = acc
  \/ exists h, acc' = acc ++ [h] /\ hit_url h = base src +:+ page
               /\ hit_src h = name src /\ documented q h.
Proof.
  unfold search_page, bind.
  destruct (fetch (base src +:+ page) false w) as [[e|data] w1] eqn:Hf; [done|].
  destruct (dict_mem "error" data) eqn:He; [intros [= <- _]; by left|].
  destruct (dict_get_default "content" (JStr EmptyString) data)
    as [| | |content| |] eqn:Hc; try done.
  cbn [as_str ret].
  destruct (contains q (lower content)); [|intros [= <- _]; by left].
  destruct (matching_paragraphs q content) as [|p ps] eqn:Hm; [intros [= <- _]; by left|].
  intros [= <- <-]. right. eexists. split; [done|]. repeat split.
  exists w, w1, data, content. simpl. rewrite Hm. by repeat split.
Qed.

Lemma search_pages_adds q src page_paths acc w acc' w' :
  search_pages q src page_paths acc w = (inr acc', w') ->
  exists new,
    acc' = acc ++ new
    /\ sublist (map hit_url new) (map (fun page_path => base src +:+ page_path) page_paths)
    /\ Forall (fun h => hit_src h = name src /\ documented q h) new.
Proof.
  revert acc w. induction page_paths as [|page rest IH]; intros acc w; simpl.
  - intros [= <- _]. exists []. by rewrite app_nil_r.
  - unfold bind.
    destruct (search_page q src page acc w) as [[e|acc1] w1] eqn:Hp; [done|].
    intros Hrest. destruct (IH _ _ Hrest) as (new & -> & Hsub & Hall).
    destruct (search_page_adds _ _ _ _ _ _ _ Hp) as [->|(h & -> & Hu & Hs & Hd)].
    + exists new. split; [done|]. split; [by apply sublist_cons|done].
    + exists (h :: new). split; [by rewrite <- app_assoc|]. split.
      * simpl. rewrite Hu. by apply sublist_skip.
      * by constructor.
Qed.

Lemma search_topics_adds q topics acc w acc' w' :
  search_topics q topics acc w = (inr acc', w') ->
  exists new,
    acc' = acc ++ new
    /\ sublist (map hit_url new) (swept_urls topics)
    /\ Forall (documented q) new.
Proof.
  revert acc w. induction topics as [|t rest IH]; intros acc w; simpl.
  - intros [= <- _]. exists []. by rewrite app_nil_r.
  - unfold topic_urls. destruct (lookup_source t) as [src|]; [|apply IH].
    unfold bind.
    destruct (search_pages q src (pages src) acc w) as [[e|acc1] w1] eqn:Hp; [done|].
    intros Hrest. destruct (IH _ _ Hrest) as (new2 & -> & Hsub2 & Hall2).
    destruct (search_pages_adds _ _ _ _ _ _ _ Hp) as (new1 & -> & Hsub1 & Hall1).
    exists (new1 ++ new2). split; [by rewrite app_assoc|]. split.
    + rewrite map_app. by apply sublist_app.
    + apply Forall_app. split; [|done]. eapply Forall_impl; [exact Hall1|]. by intros h [_ ?].
Qed.

End SearchFacts.

(** ** Limits of a search result *)

Section TruncationFacts.

Local Open Scope nat_scope.

Lemma length_take n s : String.length (take n s) = Nat.min n (String.length s).
Proof.
  revert s. induction n as [|n IH]; intros [|c s]; simpl; try done. by rewrite IH.
Qed.

Lemma take_drop n s : take n s +:+ drop n s = s.
Proof.
  revert s. induction n as [|n IH]; intros [|c s]; simpl; try done.
  by rewrite app_cons, IH.
Qed.

Lemma truncated_long m :
  500 < String.length m ->
  truncated m = take 500 m +:+ "..."
  /\ String.length (take 500 m) = 500
  /\ m = take 500 m +:+ drop 500 m.
Proof.
  intros Hm. unfold truncated.
  destruct (Nat.ltb_spec 500 (String.length m)); [|lia].
  split; [done|]. split; [rewrite length_take; lia|by rewrite take_drop].
Qed.

Lemma truncated_short m : String.length m <= 500 -> truncated m = m.
Proof.
  intros Hm. unfold truncated. destruct (Nat.ltb_spec 500 (String.length m)); [lia|done].
Qed.

End TruncationFacts.

Example truncated_501 : truncated (rep "a" 501) = rep "a" 500 +:+ "...".
Proof. reflexivity. Qed.

Example truncated_500 : truncated (rep "a" 500) = rep "a" 500.
Proof. reflexivity. Qed.



(** ** Topics *)

Section TopicFacts.

Lemma map_chars_compose f g s : map_chars f (map_chars g s) = map_chars (fun c => f (g c)) s.
Proof. induction s as [|c s IH]; simpl; [done|]. by rewrite IH. Qed.

Lemma map_chars_ext f g s : (forall c, f c = g c) -> map_chars f s = map_chars g s.
Proof. intros Hfg. induction s as [|c s IH]; simpl; [done|]. by rewrite Hfg, IH. Qed.

Lemma normalize_topic_chars topic : normalize_topic topic = map_chars normalize_char topic.
Proof. unfold normalize_topic, replace_char, lower. by rewrite !map_chars_compose. Qed.

Lemma normalize_char_lower c : normalize_char (lower_char c) = normalize_char c.
Proof. by destruct c as [[] [] [] [] [] [] [] []]. Qed.

Lemma normalize_char_separator (a b : ascii) c :
  normalize_char a = "_"%char -> normalize_char b = "_"%char ->
  normalize_char (if Ascii.eqb c a then b else c) = normalize_char c.
Proof.
  intros Ha Hb. destruct (Ascii.eqb_spec c a) as [->|]; [|done]. by rewrite Ha, Hb.
Qed.

Lemma normalize_topic_lower topic : normalize_topic (lower topic) = normalize_topic topic.
Proof.
  rewrite !normalize_topic_chars. unfold lower. rewrite map_chars_compose.
  apply map_chars_ext, normalize_char_lower.
Qed.

Lemma normalize_topic_separator (a b : ascii) topic :
  normalize_char a = "_"%char -> normalize_char b = "_"%char ->
  normalize_topic (replace_char a b topic) = normalize_topic topic.
Proof.
  intros Ha Hb. rewrite !normalize_topic_chars. unfold replace_char.
  rewrite map_chars_compose. apply map_chars_ext. intros c.
  by apply normalize_char_separator.
Qed.

End TopicFacts.

Example available_topics :
  join ", " registry_keys = "connectx7, doca, vma, rdma, mlnx_ofed, mlx5_kernel, dpdk_mlx5".
Proof. reflexivity. Qed.

(** C5: [fetch_nvidia_docs] looks the topic up in lower case with hyphens
    and spaces turned into underscores.  When the normalized topic is not a
    key of the registry, the result is the error text that names it and lists
    the keys of the registry as they are, and the world is untouched: no
    request is sent, no file is read or written.  When it is the key of a
    source, the operation is the fetch of [base + page] followed by the
    rendering of its result.  Topics that differ in case only, or in which of
    hyphen, space and underscore separates the words, are treated alike, and
    every key of the registry resolves to its own source. *)
Theorem fetch_nvidia_docs_resolution {L : Libs} (topic page : string) (refresh : bool)
    (w : World) :
  (lookup_source (normalize_topic topic) = None ->
   fetch_nvidia_docs topic page refresh w
   = (inr ("Unknown topic '" +:+ normalize_topic topic +:+ "'. Available: "
           +:+ "connectx7, doca, vma, rdma, mlnx_ofed, mlx5_kernel, dpdk_mlx5"), w))
  /\ (forall src,
        lookup_source (normalize_topic topic) = Some src ->
        fetch_nvidia_docs topic page refresh w
        = (result <- fetch (base src +:+ page) refresh ;;
           render_page (base src +:+ page) result) w)
  /\ (forall topic',
        lower topic' = lower topic ->
        fetch_nvidia_docs topic' page refresh w = fetch_nvidia_docs topic page refresh w)
  /\ (forall a b : ascii,
        In a ["-"; " "; "_"]%char -> In b ["-"; " "; "_"]%char ->
        fetch_nvidia_docs (replace_char a b topic) page refresh w
        = fetch_nvidia_docs topic page refresh w)
  /\ Forall (fun k => normalize_topic k = k /\ is_Some (lookup_source k)) registry_keys.
Proof.
  split_and!.
  - intros Hl. unfold fetch_nvidia_docs. by rewrite Hl.
  - intros src Hl. unfold fetch_nvidia_docs. by rewrite Hl.
  - intros topic' Hlow. unfold fetch_nvidia_docs, normalize_topic. by rewrite Hlow.
  - intros a b Ha Hb. unfold fetch_nvidia_docs.
    rewrite normalize_topic_separator; [done| |].
    + simpl in Ha. destruct Ha as [<-|[<-|[<-|[]]]]; reflexivity.
    + simpl in Hb. destruct Hb as [<-|[<-|[<-|[]]]]; reflexivity.
  - repeat constructor; by eexists.
Qed.

Lemma fetch_nvidia_docs_resolution_witness :
  lookup_source (normalize_topic "Foo Bar") = None
  /\ fetch_nvidia_docs (L := Demo.libs) "Foo Bar" "/x" false Demo.cached_world
     = (inr "Unknown topic 'foo_bar'. Available: connectx7, doca, vma, rdma, mlnx_ofed, mlx5_kernel, dpdk_mlx5",
        Demo.cached_world)
  /\ lookup_source (normalize_topic "DPDK-mlx5") = lookup_source "dpdk_mlx5"
  /\ fetch_nvidia_docs (L := Demo.libs) "DPDK-mlx5" "/mlx5.html" false Demo.cached_world
     = fetch_nvidia_docs (L := Demo.libs) "dpdk mlx5" "/mlx5.html" false Demo.cached_world.
Proof.
  destruct (fetch_nvidia_docs_resolution (L := Demo.libs) "Foo Bar" "/x" false
              Demo.cached_world) as (Hnone & _).
  destruct (fetch_nvidia_docs_resolution (L := Demo.libs) "dpdk mlx5" "/mlx5.html" false
              Demo.cached_world) as (_ & _ & _ & Hsep & _).
  destruct (fetch_nvidia_docs_resolution (L := Demo.libs) "dpdk-mlx5" "/mlx5.html" false
              Demo.cached_world) as (_ & _ & Hcase & _).
  split; [reflexivity|]. split; [exact (Hnone eq_refl)|]. split; [reflexivity|].
  rewrite (Hcase "DPDK-mlx5" eq_refl).
  apply (Hsep " " "-")%char; simpl; tauto.
Defined.

(** C6: when the request for a URL fails, [fetch] raises nothing and
    returns the dictionary [{"error": str(e)}], on a forced fetch and on an
    unforced one that the cache does not answer, and no file is touched.  In
    the sweep of a search the page is then skipped: when the sweep over the
    topics reaches the page with some results, the page adds nothing to
    them, and the sweep goes on from the state the request left with the
    pages of the topic that come after it and then with the topics that come
    after; the text returned is made of the results of that sweep. *)
Theorem retrieval_failure_is_skipped {L : Libs} (url msg : string) (w : World) :
  outcome (http_get url (clock w)) = inl msg ->
  fetch url true w = (inr [("error", JStr msg)], after_get url w)
  /\ files (after_get url w) = files w
  /\ (cache_valid (cache_path url) w = (inr false, w) ->
      fetch url false w = (inr [("error", JStr msg)], after_get url w)
      /\ (forall q src page_path rest results,
            base src +:+ page_path = url ->
            search_pages q src (page_path :: rest) results w
            = search_pages q src rest results (after_get url w))
      /\ (forall q topic src page_path before after tb ta results0 results w0,
            lookup_source topic = Some src ->
            pages src = before ++ page_path :: after ->
            base src +:+ page_path = url ->
            (r0 <- search_topics q tb results0 ;; search_pages q src before r0) w0
            = (inr results, w) ->
            search_topics q (tb ++ topic :: ta) results0 w0
            = (r <- search_pages q src after results ;; search_topics q ta r)
                (after_get url w))
      /\ (forall query topics topic src page_path before after tb ta results w0,
            requested topics = tb ++ topic :: ta ->
            lookup_source topic = Some src ->
            pages src = before ++ page_path :: after ->
            base src +:+ page_path = url ->
            (r0 <- search_topics (lower query) tb [] ;;
             search_pages (lower query) src before r0) w0
            = (inr results, w) ->
            search_nvidia_docs query topics w0
            = (r <- search_pages (lower query) src after results ;;
               r' <- search_topics (lower query) ta r ;;
               ret (render_results query r')) (after_get url w))).
Proof.
  intros Ho.
  assert (Hf : fetch url true w = (inr [("error", JStr msg)], after_get url w)).
  { by rewrite fetch_forced, Ho. }
  split_and!; [done|done|].
  intros Hv. rewrite (fetch_miss _ _ Hv).
  assert (Hpage : forall q src page_path rest results,
            base src +:+ page_path = url ->
            search_pages q src (page_path :: rest) results w
            = search_pages q src rest results (after_get url w)).
  { intros q src page_path rest results Hurl. simpl.
    unfold bind, search_page at 1. unfold bind. rewrite Hurl, (fetch_miss _ _ Hv), Hf.
    reflexivity. }
  assert (Hsweep : forall q topic src page_path before after tb ta results0 results w0,
            lookup_source topic = Some src ->
            pages src = before ++ page_path :: after ->
            base src +:+ page_path = url ->
            (r0 <- search_topics q tb results0 ;; search_pages q src before r0) w0
            = (inr results, w) ->
            search_topics q (tb ++ topic :: ta) results0 w0
            = (r <- search_pages q src after results ;; search_topics q ta r)
                (after_get url w)).
  { intros q topic src page_path before after tb ta results0 results w0 Hsrc Hpages Hurl.
    rewrite search_topics_app. unfold bind at 1 2.
    destruct (search_topics q tb results0 w0) as [[e|r0] w1]; [done|].
    intros Hbefore. cbn [search_topics]. rewrite Hsrc, Hpages. unfold bind at 1.
    rewrite search_pages_app. unfold bind at 1. rewrite Hbefore.
    by rewrite (Hpage _ _ _ _ _ Hurl). }
  split_and!; [done|exact Hpage|exact Hsweep|].
  intros query topics topic src page_path before after tb ta results w0
    Htopics Hsrc Hpages Hurl Hbefore.
  unfold search_nvidia_docs. cbv zeta. unfold bind at 1.
  rewrite Htopics, (Hsweep _ _ _ _ _ _ _ _ _ _ _ Hsrc Hpages Hurl Hbefore).
  unfold bind.
  by destruct (search_pages (lower query) src after results (after_get url w))
    as [[e|r] w1].
Qed.

Lemma retrieval_failure_is_skipped_witness :
  outcome (http_get (Libs := Demo.libs)
             (Demo.rdma_url +:+ "/RDMA-Aware+Programming+Overview") (Demo.minute + 100000))
  = inl "All connection attempts failed"
  /\ fetch (L := Demo.libs) (Demo.rdma_url +:+ "/RDMA-Aware+Programming+Overview") false
       (mkWorld (files Demo.cached_world) (Demo.minute + 100000) [Demo.rdma_url])
     = (inr [("error", JStr "All connection attempts failed")],
        mkWorld (files Demo.cached_world) (Demo.minute + 30100000)
          [Demo.rdma_url; Demo.rdma_url +:+ "/RDMA-Aware+Programming+Overview"])
  /\ search_nvidia_docs (L := Demo.libs) "Queue" (Some ["rdma"; "dpdk_mlx5"])
       Demo.cached_world
     = (inr ("# Search Results: 'Queue'" +:+ str1 nl +:+ str1 nl
             +:+ "## DPDK mlx5 Driver - mlx5 platform" +:+ str1 nl
             +:+ "URL: https://doc.dpdk.org/guides/platform/mlx5.html"
             +:+ str1 nl +:+ str1 nl
             +:+ "> Queue pairs" +:+ str1 nl),
        mkWorld (files Demo.cached_world) (Demo.minute + 90100000)
          [Demo.rdma_url;
           Demo.rdma_url +:+ "/RDMA-Aware+Programming+Overview";
           Demo.rdma_url +:+ "/RDMA+Verbs+API";
           Demo.rdma_url +:+ "/Programming+Examples+Using+IBV+Verbs"]).
Proof.
  split; [reflexivity|].
  destruct (retrieval_failure_is_skipped (L := Demo.libs)
              (Demo.rdma_url +:+ "/RDMA-Aware+Programming+Overview")
              "All connection attempts failed"
              (mkWorld (files Demo.cached_world) (Demo.minute + 100000) [Demo.rdma_url])
              eq_refl)
    as (_ & _ & Hmiss).
  destruct (Hmiss eq_refl) as (Hfetch & _ & _ & Hsearch).
  split; [rewrite Hfetch; reflexivity|].
  rewrite (Hsearch "Queue" (Some ["rdma"; "dpdk_mlx5"]) "rdma"
             (Source Demo.rdma_url "RDMA Programming Guide"
                [EmptyString; "/RDMA-Aware+Programming+Overview";
                 "/RDMA+Verbs+API"; "/Programming+Examples+Using+IBV+Verbs"])
             "/RDMA-Aware+Programming+Overview" [EmptyString]
             ["/RDMA+Verbs+API"; "/Programming+Examples+Using+IBV+Verbs"]
             [] ["dpdk_mlx5"] [] Demo.cached_world
             eq_refl eq_refl eq_refl eq_refl eq_refl).
  reflexivity.
Defined.

(** C10: a search matches the requested topics against the keys of the
    registry as they are.  An entry that is not a key, though its normalized
    form is one, contributes no URL to the sweep and is skipped without a
    word: the search with the entry and the search without it are the same.
    [fetch_nvidia_docs] resolves the same entry to the source of its
    normalized form. *)
Theorem search_matches_topics_exactly {L : Libs} (topic : string) :
  In (normalize_topic topic) registry_keys ->
  ~ In topic registry_keys ->
  topic_urls topic = []
  /\ (forall q rest results w,
        search_topics q (topic :: rest) results w = search_topics q rest results w)
  /\ (forall query before after w,
        search_nvidia_docs query (Some (before ++ topic :: after)) w
        = search_nvidia_docs query (Some (before ++ after)) w)
  /\ exists src,
       lookup_source (normalize_topic topic) = Some src
       /\ forall page refresh w,
            fetch_nvidia_docs topic page refresh w
            = (result <- fetch (base src +:+ page) refresh ;;
               render_page (base src +:+ page) result) w.
Proof.
  intros Hnorm Hraw.
  assert (Hnone : lookup_source topic = None) by by apply assoc_none.
  split_and!.
  - unfold topic_urls. by rewrite Hnone.
  - intros. by apply search_topics_skip.
  - intros query before after w. unfold search_nvidia_docs, bind. cbv zeta.
    unfold requested. rewrite !search_topics_app. unfold bind.
    destruct (search_topics (lower query) before [] w) as [[e|acc] w1]; [done|].
    by rewrite search_topics_skip.
  - destruct (assoc_some _ _ Hnorm) as (src & Hsrc).
    change (lookup_source (normalize_topic topic) = Some src) in Hsrc.
    exists src. split; [done|].
    intros page refresh w. unfold fetch_nvidia_docs. by rewrite Hsrc.
Qed.

Lemma search_matches_topics_exactly_witness :
  In (normalize_topic "RDMA") registry_keys
  /\ ~ In "RDMA" registry_keys
  /\ topic_urls "RDMA" = []
  /\ search_nvidia_docs (L := Demo.libs) "queue" (Some ["RDMA"; "dpdk_mlx5"]) Demo.cached_world
     = search_nvidia_docs (L := Demo.libs) "queue" (Some ["dpdk_mlx5"]) Demo.cached_world.
Proof.
  assert (Hin : In (normalize_topic "RDMA") registry_keys) by (simpl; tauto).
  assert (Hnot : ~ In "RDMA" registry_keys).
  { simpl. intros [Hk|[Hk|[Hk|[Hk|[Hk|[Hk|[Hk|[]]]]]]]]; discriminate Hk. }
  destruct (search_matches_topics_exactly (L := Demo.libs) "RDMA" Hin Hnot)
    as (Hurls & _ & Hsearch & _).
  split; [exact Hin|]. split; [exact Hnot|]. split; [exact Hurls|].
  exact (Hsearch "queue" [] ["dpdk_mlx5"] Demo.cached_world).
Defined.

(** * Further properties *)

(** ** Clearing the cache *)

Section ClearFacts.

Local Open Scope nat_scope.

Lemma ends_with_app suffix a : ends_with suffix (a +:+ suffix) = true.
Proof.
  induction a as [|c a IH].
  - rewrite app_empty_l. destruct suffix; simpl; by rewrite ?Ascii.eqb_refl, ?String.eqb_refl.
  - rewrite app_cons. simpl. rewrite IH. apply orb_true_r.
Qed.

Lemma cache_path_json {L : Libs} url : ends_with ".json" (cache_path url) = true.
Proof. apply ends_with_app. Qed.

Lemma unlink_count_spec names count w :
  NoDup names ->
  (forall p, p ∈ names -> is_Some (files w !! p)) ->
  exists w',
    unlink_count names count w = (inr (count + length names), w')
    /\ (forall p, files w' !! p = if decide (p ∈ names) then None else files w !! p)
    /\ size (files w) = length names + size (files w')
    /\ clock w' = clock w /\ requests w' = requests w.
Proof.
  revert count w. induction names as [|f rest IH]; intros count w Hnd Hin.
  - exists w. simpl. rewrite Nat.add_0_r. by split_and!.
  - apply NoDup_cons in Hnd as [Hf Hnd].
    destruct (Hin f) as [x Hx]; [by left|].
    cbn [unlink_count]. unfold bind, unlink. rewrite Hx.
    destruct (IH (S count) (mkWorld (delete f (files w)) (clock w) (requests w)) Hnd)
      as (w' & Hrun & Hfiles & Hsize & Hclock & Hreq).
    { intros p Hp. cbn [files]. rewrite lookup_delete_ne by (intros ->; done).
      apply Hin. by right. }
    exists w'. cbn [files clock requests] in *. split_and!; try done.
    + rewrite Hrun. do 2 f_equal. simpl. lia.
    + intros p. rewrite Hfiles. destruct (decide (p = f)) as [->|Hne].
      * rewrite decide_False by done. rewrite lookup_delete_eq.
        by rewrite decide_True by by left.
      * rewrite lookup_delete_ne by done.
        destruct (decide (p ∈ rest)) as [Hp|Hp].
        -- by rewrite decide_True by by right.
        -- rewrite decide_False; [done|]. by intros [->|?]%elem_of_cons.
    + rewrite map_size_delete_Some in Hsize by by eexists.
      assert (size (files w) <> 0) by (apply map_size_non_empty_iff; intros Hm;
        by rewrite Hm, lookup_empty in Hx).
      simpl. lia.
Qed.

Lemma glob_json_elem w p :
  p ∈ filter (fun p => Is_true (ends_with ".json" p)) (map_to_list (files w)).*1
  <-> ends_with ".json" p = true /\ is_Some (files w !! p).
Proof.
  rewrite list_elem_of_filter, Is_true_true, list_elem_of_fmap. split.
  - intros [He ([k x] & -> & Hx)]. split; [done|].
    apply elem_of_map_to_list in Hx. by eexists.
  - intros [He [x Hx]]. split; [done|]. exists (p, x). split; [done|].
    by apply elem_of_map_to_list.
Qed.

(** What one call of [clear_doc_cache] does. *)
Lemma clear_doc_cache_run cache_dir w :
  exists n w',
    clear_doc_cache cache_dir w
    = (inr ("Cleared " +:+ str_of_nat n +:+ " cached documentation files from "
            +:+ cache_dir), w')
    /\ (forall p, files w' !! p = if ends_with ".json" p then None else files w !! p)
    /\ size (files w) = n + size (files w')
    /\ clock w' = clock w /\ requests w' = requests w.
Proof.
  unfold clear_doc_cache, bind at 1. unfold glob_json at 1.
  set (names := filter _ _).
  destruct (unlink_count_spec names 0 w) as (w' & Hrun & Hfiles & Hsize & Hclock & Hreq).
  { apply NoDup_filter, NoDup_fst_map_to_list. }
  { intros p Hp. by apply glob_json_elem in Hp as [_ ?]. }
  exists (length names), w'. unfold bind. rewrite Hrun. split_and!; try done.
  intros p. rewrite Hfiles. destruct (decide (p ∈ names)) as [Hp|Hp].
  - apply glob_json_elem in Hp as [-> _]. done.
  - destruct (ends_with ".json" p) eqn:He; [|done].
    destruct (files w !! p) as [x|] eqn:Hx; [|done].
    exfalso. apply Hp, glob_json_elem. split; [done|by eexists].
Qed.

End ClearFacts.

(** X1: [clear_doc_cache] removes every file of the cache directory whose
    name ends in [.json] and no other file, sends no request, and reports the
    number of files it removed: the directory had that many files more than
    it has afterwards.  A second call finds nothing to remove and reports 0. *)
Theorem clear_doc_cache_removes_json (cache_dir : string) (w : World) :
  exists n w',
    clear_doc_cache cache_dir w
    = (inr ("Cleared " +:+ str_of_nat n +:+ " cached documentation files from "
            +:+ cache_dir), w')
    /\ (forall p, files w' !! p = if ends_with ".json" p then None else files w !! p)
    /\ size (files w) = (n + size (files w'))%nat
    /\ clock w' = clock w /\ requests w' = requests w
    /\ clear_doc_cache cache_dir w'
       = (inr ("Cleared 0 cached documentation files from " +:+ cache_dir), w').
Proof.
  destruct (clear_doc_cache_run cache_dir w) as (n & w' & Hrun & Hfiles & Hsize & Hc & Hr).
  exists n, w'. split_and!; try done.
  destruct (clear_doc_cache_run cache_dir w')
    as (n2 & w2 & Hrun2 & Hfiles2 & Hsize2 & Hc2 & Hr2).
  assert (Hsame : files w2 = files w').
  { apply map_eq. intros p. rewrite Hfiles2, Hfiles. by destruct (ends_with ".json" p). }
  rewrite Hsame in Hsize2. assert (n2 = 0%nat) as -> by lia.
  rewrite Hrun2. f_equal. destruct w2, w'. simpl in *. by subst.
Qed.

Example clear_mixed_world :
  clear_doc_cache "/home/user/.cache/connectx7-mcp" Scenes.mixed_world
  = (inr "Cleared 2 cached documentation files from /home/user/.cache/connectx7-mcp",
     mkWorld {[ "notes.txt" := "keep" ]} Demo.minute []).
Proof. by vm_compute. Qed.

(** X2: after [clear_doc_cache] no URL has a cache record: for every URL
    [cache_valid] is false, and the next fetch, forced or not, sends the
    request for the page. *)
Theorem fetch_after_clear_retrieves {L : Libs} (cache_dir url : string) (w : World) :
  let w' := (clear_doc_cache cache_dir w).2 in
  files w' !! cache_path url = None
  /\ cache_valid (cache_path url) w' = (inr false, w')
  /\ fetch url false w' = fetch url true w'
  /\ requests (fetch url false w').2 = requests w ++ [url].
Proof.
  destruct (clear_doc_cache_run cache_dir w) as (n & w' & Hrun & Hfiles & _ & _ & Hr).
  rewrite Hrun. cbn [snd]. cbv zeta.
  assert (Hnone : files w' !! cache_path url = None).
  { by rewrite Hfiles, cache_path_json. }
  assert (Hv : cache_valid (cache_path url) w' = (inr false, w')).
  { apply cache_valid_unusable. by constructor. }
  split_and!; try done.
  - by apply fetch_miss.
  - rewrite (fetch_miss _ _ Hv), <- Hr. apply fetch_forced_requests.
Qed.

(** ** What a fetch touches *)

Section FrameFacts.

Context {L : Libs}.

Lemma dict_get_set_other k k' v d :
  k <> k' -> dict_get k' (dict_set k v d) = dict_get k' d.
Proof.
  intros Hne. induction d as [|[k0 v0] d IH]; simpl.
  - by apply String.eqb_neq in Hne as Hne'; rewrite String.eqb_sym, Hne'.
  - destruct (String.eqb k k0) eqn:Hk; simpl.
    + apply String.eqb_eq in Hk as <-.
      assert (String.eqb k' k = false) as -> by (apply String.eqb_neq; congruence).
      done.
    + by rewrite IH.
Qed.

(** A forced fetch sends one request and can change one file. *)
Lemma fetch_forced_frame url w :
  (forall p, p <> cache_path url -> files (fetch url true w).2 !! p = files w !! p)
  /\ requests (fetch url true w).2 = requests w ++ [url]
  /\ clock (fetch url true w).2 = finished (http_get url (clock w)).
Proof.
  destruct (fetch_forced_result url w) as [(e & He)|(text & main & _ & _ & Hs)].
  - by rewrite He.
  - cbv zeta in Hs. rewrite Hs. cbn [snd files requests clock]. split_and!; try done.
    intros p Hp. by rewrite lookup_insert_ne.
Qed.

(** A fetch leaves the world as it is, or it sends one request, for its URL;
    only the cache file of the URL can change. *)
Lemma fetch_frame url refresh w :
  (forall p, p <> cache_path url -> files (fetch url refresh w).2 !! p = files w !! p)
  /\ ((fetch url refresh w).2 = w
      \/ (requests (fetch url refresh w).2 = requests w ++ [url]
          /\ clock (fetch url refresh w).2 = finished (http_get url (clock w)))).
Proof.
  destruct (fetch_forced_frame url w) as (Hfiles & Hreq & Hclock).
  destruct refresh; [by eauto|].
  rewrite fetch_unforced.
  destruct (cache_valid (cache_path url) w).1 as [e|[|]].
  - by split; [|left].
  - rewrite read_cached_world. by split; [|left].
  - by eauto.
Qed.

End FrameFacts.

(** X3: a call of [fetch] either leaves the world as it was (no request, no
    write, the clock unmoved) or sends exactly one request, and that for its
    own URL; the only file it can change is the cache file of that URL; a
    forced call always sends the request. *)
Theorem fetch_touches_one_file {L : Libs} (url : string) (refresh : bool) (w : World) :
  let w' := (fetch url refresh w).2 in
  (forall p, p <> cache_path url -> files w' !! p = files w !! p)
  /\ (w' = w
      \/ (requests w' = requests w ++ [url]
          /\ clock w' = finished (http_get url (clock w))))
  /\ (refresh = true -> requests w' = requests w ++ [url]).
Proof.
  cbv zeta. destruct (fetch_frame url refresh w) as [Hfiles Hw].
  split_and!; try done. intros ->. apply fetch_forced_frame.
Qed.

(** X4: a cache hit returns the stored object as it is, with the member
    [cached] set to true, and leaves the world untouched: no request is sent
    and nothing is written.  Nothing in the stored object is compared with
    the URL asked for. *)
Theorem cache_hit_returns_stored {L : Libs} (url txt s : string) (d : dict) (t : Z)
    (w : World) :
  files w !! cache_path url = Some txt ->
  json_loads txt = inr (JObj d) ->
  dict_get "ts" d = Some (JStr s) ->
  fromisoformat s = Some (Naive t) ->
  clock w - t < timedelta_hours 24 ->
  fetch url false w = (inr (dict_set "cached" (JBool true) d), w)
  /\ forall k, k <> "cached" ->
       dict_get k (dict_set "cached" (JBool true) d) = dict_get k d.
Proof.
  intros Hf Hj Hts Hs Hage.
  assert (Hv : cache_valid (cache_path url) w = (inr true, w)).
  { rewrite (cache_valid_stamped _ _ t) by (by exists txt, d, s).
    by rewrite bool_decide_eq_true_2. }
  destruct (fetch_hit _ _ Hv) as (txt' & d' & Hf' & Hj' & Hhit).
  rewrite Hf in Hf'. injection Hf' as <-. rewrite Hj in Hj'. injection Hj' as <-.
  split; [done|]. intros k Hk. by apply dict_get_set_other.
Qed.

Lemma cache_hit_returns_stored_witness :
  fetch (L := Demo.libs) Demo.mlx5_url false Demo.bare_world
  = (inr [("ts", JStr Demo.noon_iso); ("cached", JBool true)], Demo.bare_world).
Proof.
  destruct (cache_hit_returns_stored (L := Demo.libs) Demo.mlx5_url Demo.bare_text
              Demo.noon_iso Demo.bare_record Demo.noon Demo.bare_world
              eq_refl eq_refl eq_refl eq_refl eq_refl) as [Hhit _].
  exact Hhit.
Defined.

(** X5: a record that is 24 hours old or older is not used: the unforced
    fetch does what a forced one does and sends the request.  A record of
    exactly 24 hours is already too old. *)
Theorem expired_record_is_refetched {L : Libs} (url : string) (t : Z) (w : World) :
  stamped w (cache_path url) t ->
  timedelta_hours 24 <= clock w - t ->
  fetch url false w = fetch url true w
  /\ requests (fetch url false w).2 = requests w ++ [url].
Proof.
  intros Hst Hold.
  assert (Hv : cache_valid (cache_path url) w = (inr false, w)).
  { rewrite (cache_valid_stamped _ _ _ Hst).
    rewrite bool_decide_eq_false_2; [done|]. unfold CACHE_HOURS. lia. }
  rewrite (fetch_miss _ _ Hv). split; [done|]. apply fetch_forced_requests.
Qed.

Lemma expired_record_is_refetched_witness :
  fetch (L := Demo.libs) Demo.mlx5_url false
    (mkWorld (files Demo.cached_world) (Demo.later + timedelta_hours 24) [])
  = fetch (L := Demo.libs) Demo.mlx5_url true
      (mkWorld (files Demo.cached_world) (Demo.later + timedelta_hours 24) []).
Proof.
  destruct (expired_record_is_refetched (L := Demo.libs) Demo.mlx5_url Demo.later
              (mkWorld (files Demo.cached_world) (Demo.later + timedelta_hours 24) []))
    as [Heq _].
  - by apply demo_stamped.
  - vm_compute. discriminate.
  - exact Heq.
Defined.

(** ** What a search touches *)

Section SweepFrame.

Context {L : Libs}.

Lemma within_refl w : within [] w w.
Proof. split; [exists []; by rewrite app_nil_r|done]. Qed.

Lemma within_app urls1 urls2 w w1 w2 :
  within urls1 w w1 -> within urls2 w1 w2 -> within (urls1 ++ urls2) w w2.
Proof.
  intros [(s1 & Hr1 & Hs1) Hf1] [(s2 & Hr2 & Hs2) Hf2]. split.
  - exists (s1 ++ s2). rewrite Hr2, Hr1, app_assoc. split; [done|by apply sublist_app].
  - intros p Hp. rewrite Hf2, Hf1; [done| |]; intros u Hu; apply Hp, elem_of_app; auto.
Qed.

Lemma within_l urls1 urls2 w w1 : within urls1 w w1 -> within (urls1 ++ urls2) w w1.
Proof.
  intros Hw. rewrite <- (app_nil_r urls1) in Hw.
  destruct Hw as [(s & Hr & Hs) Hf]. split.
  - exists s. split; [done|]. rewrite app_nil_r in Hs. by apply sublist_inserts_r.
  - intros p Hp. apply Hf. intros u Hu. apply Hp. rewrite app_nil_r in Hu.
    apply elem_of_app. by left.
Qed.

Lemma fetch_within url refresh w : within [url] w (fetch url refresh w).2.
Proof.
  destruct (fetch_frame url refresh w) as [Hfiles [Hw|[Hreq _]]]; split.
  - exists []. rewrite Hw, app_nil_r. split; [done|apply sublist_nil_l].
  - intros p Hp. apply Hfiles, Hp. by left.
  - exists [url]. by split.
  - intros p Hp. apply Hfiles, Hp. by left.
Qed.

Lemma search_page_world q src page_path results w :
  (search_page q src page_path results w).2
  = (fetch (base src +:+ page_path) false w).2.
Proof.
  unfold search_page, bind.
  destruct (fetch (base src +:+ page_path) false w) as [[e|data] w1]; [done|].
  destruct (dict_mem "error" data); [done|].
  destruct (dict_get_default "content" (JStr EmptyString) data); try done.
  cbn [as_str ret]. destruct (contains q (lower s)); [|done].
  by destruct (matching_paragraphs q s).
Qed.

Lemma search_pages_within q src page_paths results w :
  within (map (fun page_path => base src +:+ page_path) page_paths) w
         (search_pages q src page_paths results w).2.
Proof.
  revert results w. induction page_paths as [|page rest IH]; intros results w.
  - apply within_refl.
  - cbn [search_pages map]. unfold bind.
    pose proof (search_page_world q src page results w) as Hw.
    pose proof (fetch_within (base src +:+ page) false w) as Hf. rewrite <- Hw in Hf.
    destruct (search_page q src page results w) as [[e|results1] w1]; cbn [snd] in *.
    + by apply (within_l [_]).
    + apply (within_app [_] _ _ w1); [done|apply IH].
Qed.

Lemma search_topics_within q topics results w :
  within (swept_urls topics) w (search_topics q topics results w).2.
Proof.
  revert results w. induction topics as [|t rest IH]; intros results w.
  - apply within_refl.
  - cbn [search_topics swept_urls flat_map]. unfold topic_urls at 1.
    destruct (lookup_source t) as [src|]; [|apply IH].
    unfold bind. pose proof (search_pages_within q src (pages src) results w) as Hp.
    destruct (search_pages q src (pages src) results w) as [[e|results1] w1]; cbn [snd] in *.
    + by apply within_l.
    + eapply within_app; [done|apply IH].
Qed.

Lemma search_topics_unknown q topics results w :
  Forall (fun t => lookup_source t = None) topics ->
  search_topics q topics results w = (inr results, w).
Proof.
  induction 1 as [|t rest Ht _ IH]; [done|]. by rewrite search_topics_skip.
Qed.

End SweepFrame.

(** X6: a search sends requests only for URLs of the requested topics that
    are in the registry, in the order of the sweep and at most one for each page it
    visits, and the only files it can change are the cache files of those
    URLs; this holds also when the sweep is cut short by an exception. *)
Theorem search_stays_within_topics {L : Libs} (query : string)
    (topics : option (list string)) (w : World) :
  let w' := (search_nvidia_docs query topics w).2 in
  (exists sent,
     requests w' = requests w ++ sent
     /\ sublist sent (swept_urls (requested topics)))
  /\ forall p,
       (forall u, u ∈ swept_urls (requested topics) -> p <> cache_path u) ->
       files w' !! p = files w !! p.
Proof.
  cbv zeta.
  pose proof (search_topics_within (lower query) (requested topics) [] w) as Hw.
  unfold search_nvidia_docs, bind. cbv zeta.
  by destruct (search_topics (lower query) (requested topics) [] w) as [[e|results] w1].
Qed.

Example search_sweeps_two_topics :
  requests (search_nvidia_docs (L := Demo.libs) "QP state" (Some ["rdma"; "vma"])
              Demo.empty_world).2
  = swept_urls ["rdma"; "vma"].
Proof. by vm_compute. Qed.

(** X7: a search in which no requested topic is a key of the registry (the
    empty list of topics included) returns the text that no results were
    found, with the query as it was given, and touches nothing. *)
Theorem search_without_known_topic {L : Libs} (query : string) (topics : list string)
    (w : World) :
  Forall (fun t => lookup_source t = None) topics ->
  search_nvidia_docs query (Some topics) w
  = (inr ("No results found for '" +:+ query +:+ "'"), w).
Proof.
  intros Hun. unfold search_nvidia_docs, bind. cbv zeta. cbn [requested].
  by rewrite search_topics_unknown.
Qed.

Lemma search_without_known_topic_witness :
  search_nvidia_docs (L := Demo.libs) "Queue" (Some ["RDMA"; "dpdk-mlx5"]) Demo.cached_world
  = (inr "No results found for 'Queue'", Demo.cached_world).
Proof.
  apply (search_without_known_topic (L := Demo.libs) "Queue" ["RDMA"; "dpdk-mlx5"]).
  by repeat constructor.
Defined.

(** X8: when [json.loads] returns, for the cache file of a URL, a value
    that is not a dictionary, [cache_valid] does not answer false: the
    [TypeError] of its subscript is not among the exceptions it catches.
    The unforced fetch raises it, [fetch_nvidia_docs] raises it, and a
    search raises it at that page, so that the pages after it are not swept.
    A forced fetch does not read the file: what it returns or raises is the
    same whatever the files are. *)
Theorem non_object_record_raises {L : Libs} (url txt : string) (v : json) (w : World) :
  files w !! cache_path url = Some txt ->
  json_loads txt = inr v ->
  (forall d, v <> JObj d) ->
  cache_valid (cache_path url) w = (inl TypeError, w)
  /\ fetch url false w = (inl TypeError, w)
  /\ (forall topic page src,
        lookup_source (normalize_topic topic) = Some src ->
        base src +:+ page = url ->
        fetch_nvidia_docs topic page false w = (inl TypeError, w))
  /\ (forall q src page_path rest results,
        base src +:+ page_path = url ->
        search_pages q src (page_path :: rest) results w = (inl TypeError, w))
  /\ forall fs, (fetch url true (mkWorld fs (clock w) (requests w))).1 = (fetch url true w).1.
Proof.
  intros Hf Hj Hv.
  assert (Hc : cache_valid (cache_path url) w = (inl TypeError, w)).
  { rewrite cache_valid_cases, Hf, Hj. destruct v; try done. by destruct (Hv members). }
  assert (Hfetch : fetch url false w = (inl TypeError, w)).
  { by rewrite fetch_unforced, Hc. }
  split_and!; try done.
  - intros topic page src Hsrc Hurl. unfold fetch_nvidia_docs. rewrite Hsrc, Hurl.
    unfold bind. by rewrite Hfetch.
  - intros q src page_path rest results Hurl. cbn [search_pages].
    unfold bind, search_page. unfold bind. by rewrite Hurl, Hfetch.
  - intros fs. rewrite !fetch_forced. cbn [clock].
    destruct (outcome (http_get url (clock w))) as [e|text]; [done|].
    cbv zeta. by destruct (select_main _).
Qed.

Lemma non_object_record_raises_witness :
  fetch (L := Demo.libs) Demo.mlx5_url false Demo.list_world
  = (inl TypeError, Demo.list_world)
  /\ search_nvidia_docs (L := Demo.libs) "queue" (Some ["dpdk_mlx5"]) Demo.list_world
     = (inl TypeError, Demo.list_world).
Proof.
  destruct (non_object_record_raises (L := Demo.libs) Demo.mlx5_url Demo.list_text
              (JArr []) Demo.list_world eq_refl eq_refl) as (_ & Hfetch & _ & Hsweep & _).
  { intros d Hd. discriminate Hd. }
  split; [exact Hfetch|].
  unfold search_nvidia_docs, bind. cbv zeta. cbn [requested search_topics].
  change (lookup_source "dpdk_mlx5")
    with (Some (Source "https://doc.dpdk.org/guides/platform" "DPDK mlx5 Driver"
                  ["/mlx5.html"])).
  unfold bind. cbn [pages]. by rewrite (Hsweep _ _ "/mlx5.html" [] []).
Defined.

(** ** Paragraphs and matches *)

Section ParagraphFacts.

Lemma prefix_empty s : String.prefix EmptyString s = true.
Proof. by destruct s. Qed.

Lemma prefix_app sub s b :
  String.prefix sub s = true -> String.prefix sub (s +:+ b) = true.
Proof.
  revert s. induction sub as [|c sub IH]; intros s.
  - intros _. apply prefix_empty.
  - destruct s as [|c' s]; [done|]. rewrite app_cons. simpl.
    destruct (ascii_dec c c'); [apply IH|done].
Qed.

Lemma contains_app_r sub s b : contains sub s = true -> contains sub (s +:+ b) = true.
Proof.
  induction s as [|c s IH].
  - simpl. rewrite orb_false_r. destruct sub; [|done]. intros _.
    destruct b; simpl; by rewrite ?prefix_empty.
  - rewrite app_cons. cbn [contains]. intros [Hp|Hc]%orb_true_iff.
    + apply (prefix_app _ _ b) in Hp. rewrite app_cons in Hp. by rewrite Hp.
    + rewrite IH by done. apply orb_true_r.
Qed.

Lemma contains_app_l sub a s : contains sub s = true -> contains sub (a +:+ s) = true.
Proof.
  intros Hs. induction a as [|c a IH]; [done|].
  rewrite app_cons. cbn [contains]. rewrite IH. apply orb_true_r.
Qed.

Lemma lower_app a b : lower (a +:+ b) = lower a +:+ lower b.
Proof.
  unfold lower. induction a as [|c a IH]; [done|].
  rewrite app_cons. simpl. by rewrite IH, app_cons.
Qed.

Lemma split_blank_cons2 x y c :
  split_blank (String x (String y c))
  = if is_nl x && is_nl y then EmptyString :: split_blank c
    else match split_blank (String y c) with
         | p :: ps => String x p :: ps
         | [] => [str1 x]
         end.
Proof. reflexivity. Qed.

Lemma split_blank_parts c : paragraphs_of c /\ forall x, paragraphs_of (String x c).
Proof.
  induction c as [|y c [IHc IHy]].
  - split; [|intros x]; eexists _, []; (split; [reflexivity|]);
      (split; [by exists EmptyString; rewrite app_empty_r|done]).
  - split; [apply IHy|]. intros x. unfold paragraphs_of. rewrite split_blank_cons2.
    destruct (is_nl x && is_nl y) eqn:Hxy.
    + destruct IHc as (p0 & ps & Hs & (b & Hb) & Hps).
      eexists _, _. split; [reflexivity|]. split; [by eexists|].
      rewrite Hs. intros p [<-|Hp].
      * exists (String x (String y EmptyString)), b. by rewrite Hb at 1.
      * destruct (Hps p Hp) as (a & b' & Hab).
        exists (String x (String y a)), b'. by rewrite Hab at 1.
    + destruct (IHy y) as (p0 & ps & Hs & (b & Hb) & Hps). rewrite Hs.
      eexists _, _. split; [reflexivity|]. split.
      * exists b. by rewrite app_cons, <- Hb.
      * intros p Hp. destruct (Hps p Hp) as (a & b' & Hab).
        exists (String x a), b'. by rewrite app_cons, <- Hab.
Qed.

Lemma split_blank_part c p : In p (split_blank c) -> exists a b, c = a +:+ p +:+ b.
Proof.
  destruct (split_blank_parts c) as [(p0 & ps & Hs & (b & Hb) & Hps) _].
  rewrite Hs. intros [<-|Hp]; [|by apply Hps]. by exists EmptyString, b.
Qed.

(** A query found in a paragraph is found in the whole content. *)
Lemma paragraph_match_in_content q c p :
  In p (split_blank c) -> contains q (lower p) = true -> contains q (lower c) = true.
Proof.
  intros Hp Hq. destruct (split_blank_part _ _ Hp) as (a & b & ->).
  rewrite !lower_app. by apply contains_app_l, contains_app_r.
Qed.

Lemma matching_paragraphs_content q c :
  matching_paragraphs q c <> [] -> contains q (lower c) = true.
Proof.
  unfold matching_paragraphs.
  destruct (List.filter _ _) as [|p ps] eqn:Hf; [done|]. intros _.
  assert (Hin : In p (List.filter (fun p => contains q (lower p)) (split_blank c)))
    by (rewrite Hf; by left).
  apply List.filter_In in Hin as [Hp Hq]. by eapply paragraph_match_in_content.
Qed.

End ParagraphFacts.

(** A page that was fetched without error adds an entry when some paragraph
    matches, and nothing otherwise. *)
Lemma search_page_run {L : Libs} q src page_path content data results w w1 :
  fetch (base src +:+ page_path) false w = (inr data, w1) ->
  dict_mem "error" data = false ->
  dict_get_default "content" (JStr EmptyString) data = JStr content ->
  search_page q src page_path results w
  = (inr match matching_paragraphs q content with
         | [] => results
         | paras =>
             results ++
             [Hit (name src) (dict_get_default "title" (JStr page_path) data)
                  (base src +:+ page_path) (firstn 2 paras)]
         end, w1).
Proof.
  intros Hf He Hc.
  unfold search_page, bind. rewrite Hf, He, Hc. cbn [as_str ret].
  destruct (matching_paragraphs q content) as [|p ps] eqn:Hm.
  - by destruct (contains q (lower content)).
  - rewrite matching_paragraphs_content by by rewrite Hm. done.
Qed.

(** X9: for a page that [fetch] returned without error, the sweep adds an
    entry exactly when some paragraph of the content contains the query in
    lower case: the test on the whole content that comes first never keeps a
    matching paragraph out.  The entry holds the name of the source, the
    title of the record or, when it has none, the page path, the URL, and the
    first two matching paragraphs; without a match the results are as they
    were. *)
Theorem search_page_adds_matching {L : Libs} (q : string) (src : source)
    (page_path content : string) (data : dict) (results : list hit) (w w1 : World) :
  fetch (base src +:+ page_path) false w = (inr data, w1) ->
  dict_mem "error" data = false ->
  dict_get_default "content" (JStr EmptyString) data = JStr content ->
  search_page q src page_path results w
  = (inr match matching_paragraphs q content with
         | [] => results
         | paras =>
             results ++
             [Hit (name src) (dict_get_default "title" (JStr page_path) data)
                  (base src +:+ page_path) (firstn 2 paras)]
         end, w1)
  /\ (matching_paragraphs q content <> []
      <-> exists p, In p (split_blank content) /\ contains q (lower p) = true).
Proof.
  intros Hf He Hc. split; [by apply search_page_run|].
  unfold matching_paragraphs. split.
  - destruct (List.filter _ _) as [|p ps] eqn:Hfl; [done|]. intros _.
    exists p. apply (List.filter_In (fun p => contains q (lower p))). rewrite Hfl. by left.
  - intros (p & Hp & Hq) Hnil.
    assert (Hin : In p (List.filter (fun p => contains q (lower p)) (split_blank content)))
      by by apply List.filter_In.
    by rewrite Hnil in Hin.
Qed.

Lemma search_page_adds_matching_witness :
  search_page (L := Demo.libs) "queue"
    (Source "https://doc.dpdk.org/guides/platform" "DPDK mlx5 Driver" ["/mlx5.html"])
    "/mlx5.html" [] Demo.cached_world
  = (inr [Hit "DPDK mlx5 Driver" (JStr "mlx5 platform") Demo.mlx5_url ["Queue pairs"]],
     Demo.cached_world).
Proof.
  destruct (search_page_adds_matching (L := Demo.libs) "queue"
              (Source "https://doc.dpdk.org/guides/platform" "DPDK mlx5 Driver"
                 ["/mlx5.html"])
              "/mlx5.html" Demo.mlx5_content
              (Demo.mlx5_record Demo.later_iso ++ [("cached", JBool true)]) []
              Demo.cached_world Demo.cached_world eq_refl eq_refl eq_refl) as [Hrun _].
  exact Hrun.
Defined.

Example query_across_paragraphs :
  contains "mlx5  queue" (lower ("# MLX5" +:+ newlines 2 +:+ "Queue pairs")) = false
  /\ contains ("mlx5" +:+ newlines 2 +:+ "queue")
       (lower ("# MLX5" +:+ newlines 2 +:+ "Queue pairs")) = true
  /\ matching_paragraphs ("mlx5" +:+ newlines 2 +:+ "queue")
       ("# MLX5" +:+ newlines 2 +:+ "Queue pairs") = [].
Proof. by vm_compute. Qed.

(** ** Lengths *)

Section LengthFacts.

Local Open Scope nat_scope.

Lemma length_append s t : String.length (s +:+ t) = String.length s + String.length t.
Proof. induction s as [|c s IH]; [done|]. rewrite app_cons. simpl. by rewrite IH. Qed.

Lemma length_newlines n : String.length (newlines n) = n.
Proof. induction n as [|n IH]; [done|]. rewrite newlines_S. simpl. by rewrite IH. Qed.

Lemma squeeze_le_self n : squeeze n <= n.
Proof. unfold squeeze. destruct (Nat.leb_spec 3 n); lia. Qed.

Lemma length_collapse_runs p s :
  String.length (collapse_runs p s) <= p + String.length s.
Proof.
  revert p. induction s as [|c s IH]; intros p; cbn [collapse_runs].
  - rewrite length_newlines. pose proof (squeeze_le_self p). simpl. lia.
  - destruct (is_nl c).
    + specialize (IH (S p)). simpl. lia.
    + rewrite length_append, length_newlines. specialize (IH 0).
      pose proof (squeeze_le_self p). simpl in *. lia.
Qed.

Lemma take_app_exact n a b : String.length a = n -> take n (a +:+ b) = a.
Proof.
  revert n. induction a as [|c a IH]; intros n Hn; simpl in Hn; subst n.
  - by destruct b.
  - rewrite app_cons. simpl. by rewrite IH.
Qed.

End LengthFacts.

(** X10: the collapsing never makes a text longer, and it returns the text
    as it is exactly when the text has no run of 3 newline characters. *)
Theorem collapse_newlines_shrinks (s : string) :
  (String.length (collapse_newlines s) <= String.length s)%nat
  /\ (collapse_newlines s = s <-> (longest_newline_run s < 3)%nat).
Proof.
  split.
  - rewrite collapse_newlines_runs. apply (length_collapse_runs 0).
  - split; [|apply collapse_newlines_id].
    intros Heq. pose proof (collapse_newlines_bounded s) as Hb.
    rewrite Heq in Hb. lia.
Qed.

(** X11: an excerpt shown by a search has at most 503 characters; its first
    500 characters are those of the paragraph; and cutting an excerpt again
    changes nothing. *)
Theorem truncated_bounded (m : string) :
  (String.length (truncated m) <= 503)%nat
  /\ take 500 (truncated m) = take 500 m
  /\ truncated (truncated m) = truncated m.
Proof.
  destruct (Nat.le_gt_cases (String.length m) 500) as [Hs|Hl].
  - rewrite !truncated_short by (by rewrite ?truncated_short). split_and!; [lia|done..].
  - destruct (truncated_long m Hl) as (Ht & Hlen & _).
    assert (Hlt : (String.length (truncated m) = 503)%nat).
    { rewrite Ht, length_append, Hlen. done. }
    assert (Htake : take 500 (truncated m) = take 500 m).
    { rewrite Ht. by apply take_app_exact. }
    split_and!; [lia|done|].
    destruct (truncated_long (truncated m)) as (Ht2 & _); [lia|].
    by rewrite Ht2, Htake.
Qed.

(** ** Titles *)

Section TitleFacts.

Lemma split_char_clean sep s : has_char sep s = false -> split_char sep s = [s].
Proof.
  induction s as [|c s IH]; [done|]. simpl.
  intros [Hc Hs]%orb_false_iff. rewrite Hc, IH by done. done.
Qed.

Lemma split_char_app sep a b :
  split_char sep (a +:+ String sep b) = split_char sep a ++ split_char sep b.
Proof.
  induction a as [|c a IH].
  - rewrite app_empty_l. simpl. by rewrite Ascii.eqb_refl.
  - rewrite app_cons. simpl. rewrite IH.
    destruct (Ascii.eqb c sep); [done|].
    pose proof (split_char_nonempty sep a). by destruct (split_char sep a).
Qed.

Lemma last_segment_app a b :
  has_char "/" b = false -> last_segment (a +:+ String "/" b) = b.
Proof.
  intros Hb. unfold last_segment.
  rewrite split_char_app, (split_char_clean _ b Hb). apply last_last.
Qed.

Lemma last_segment_clean url : has_char "/" url = false -> last_segment url = url.
Proof. intros Hu. unfold last_segment. by rewrite split_char_clean. Qed.

End TitleFacts.

(** X12: for a page without a title element the title of the record is
    what follows the last slash of the URL, the whole URL when it has no
    slash, and the empty string when the URL ends in a slash. *)
Theorem title_falls_back_to_last_segment {L : Libs} (url : string) (sp : soup) :
  find_name "title" sp = None ->
  (forall a b,
     url = a +:+ "/" +:+ b -> has_char "/" b = false -> page_title url sp = JStr b)
  /\ (has_char "/" url = false -> page_title url sp = JStr url).
Proof.
  intros Hno. unfold page_title. rewrite Hno. split.
  - intros a b -> Hb. f_equal. by apply last_segment_app.
  - intros Hu. f_equal. by apply last_segment_clean.
Qed.

Lemma title_falls_back_to_last_segment_witness :
  page_title (L := Demo.libs) Demo.mlx5_url (Demo.parse EmptyString) = JStr "mlx5.html"
  /\ page_title (L := Demo.libs) "https://docs.nvidia.com/doca/sdk/" (Demo.parse EmptyString)
     = JStr EmptyString.
Proof.
  destruct (title_falls_back_to_last_segment (L := Demo.libs) Demo.mlx5_url
              (Demo.parse EmptyString) eq_refl) as [H1 _].
  destruct (title_falls_back_to_last_segment (L := Demo.libs)
              "https://docs.nvidia.com/doca/sdk/" (Demo.parse EmptyString) eq_refl)
    as [H2 _].
  split.
  - exact (H1 "https://doc.dpdk.org/guides/platform" "mlx5.html" eq_refl eq_refl).
  - exact (H2 "https://docs.nvidia.com/doca/sdk" EmptyString eq_refl eq_refl).
Defined.

(** ** The text of a fetched page *)

(** X13: for a topic of the registry, a forced [fetch_nvidia_docs] whose
    request fails returns the line that names the URL and the message, and
    one whose page has no content region returns the same line with
    [No content found]; in both cases nothing is raised, the request is on
    record and the files are as they were.  A title element without a
    string is formatted as [None]. *)
Theorem fetch_nvidia_docs_forced_text {L : Libs} (topic page : string) (src : source)
    (w : World) :
  lookup_source (normalize_topic topic) = Some src ->
  let url := base src +:+ page in
  (forall e,
     outcome (http_get url (clock w)) = inl e ->
     fetch_nvidia_docs topic page true w
     = (inr ("Error fetching " +:+ url +:+ ": " +:+ e), after_get url w))
  /\ (forall text,
        outcome (http_get url (clock w)) = inr text ->
        select_main (decompose_all CHROME (BeautifulSoup text)) = None ->
        fetch_nvidia_docs topic page true w
        = (inr ("Error fetching " +:+ url +:+ ": No content found"), after_get url w))
  /\ files (after_get url w) = files w
  /\ requests (after_get url w) = requests w ++ [url]
  /\ (forall sp t,
        find_name "title" sp = Some t -> tag_string t = None ->
        py_str (page_title url sp) = "None").
Proof.
  intros Hsrc url. unfold fetch_nvidia_docs. rewrite Hsrc. fold url.
  unfold bind. rewrite fetch_forced. split_and!.
  - intros e ->. reflexivity.
  - intros text -> Hm. cbv zeta. rewrite Hm. reflexivity.
  - reflexivity.
  - reflexivity.
  - intros sp t Ht Hs. unfold page_title. by rewrite Ht, Hs.
Qed.

Lemma fetch_nvidia_docs_forced_text_witness :
  fetch_nvidia_docs (L := Demo.libs) "RDMA" "/RDMA+Verbs+API" true Demo.empty_world
  = (inr ("Error fetching " +:+ Demo.verbs_url +:+ ": All connection attempts failed"),
     after_get (L := Demo.libs) Demo.verbs_url Demo.empty_world)
  /\ fetch_nvidia_docs (L := Demo.libs) "rdma" EmptyString true Demo.empty_world
     = (inr ("Error fetching " +:+ Demo.rdma_url +:+ ": No content found"),
        after_get (L := Demo.libs) Demo.rdma_url Demo.empty_world).
Proof.
  destruct (fetch_nvidia_docs_forced_text (L := Demo.libs) "RDMA" "/RDMA+Verbs+API"
              (Source Demo.rdma_url "RDMA Programming Guide"
                 [EmptyString; "/RDMA-Aware+Programming+Overview";
                  "/RDMA+Verbs+API"; "/Programming+Examples+Using+IBV+Verbs"])
              Demo.empty_world eq_refl) as (Herr & _).
  destruct (fetch_nvidia_docs_forced_text (L := Demo.libs) "rdma" EmptyString
              (Source Demo.rdma_url "RDMA Programming Guide"
                 [EmptyString; "/RDMA-Aware+Programming+Overview";
                  "/RDMA+Verbs+API"; "/Programming+Examples+Using+IBV+Verbs"])
              Demo.empty_world eq_refl) as (_ & Hnone & _).
  split.
  - exact (Herr "All connection attempts failed" eq_refl).
  - exact (Hnone EmptyString eq_refl eq_refl).
Defined.

(** X14: for a topic of the registry whose page has a valid cache record
    without the member [error], an unforced [fetch_nvidia_docs] sends no
    request and writes nothing.  With a title and a content in the record it
    returns them under the URL asked for, tagged [cached]; when the record
    has no title, or a title and no content, it raises [KeyError] for the
    missing member. *)
Theorem fetch_nvidia_docs_cached_text {L : Libs} (topic page txt s : string)
    (src : source) (d : dict) (t : Z) (w : World) :
  lookup_source (normalize_topic topic) = Some src ->
  let url := base src +:+ page in
  files w !! cache_path url = Some txt ->
  json_loads txt = inr (JObj d) ->
  dict_get "ts" d = Some (JStr s) ->
  fromisoformat s = Some (Naive t) ->
  clock w - t < timedelta_hours 24 ->
  dict_get "error" d = None ->
  fetch_nvidia_docs topic page false w
  = (match dict_get "title" d, dict_get "content" d with
     | Some title, Some content =>
         inr ("# " +:+ py_str title +:+ str1 nl +:+ str1 nl
              +:+ "Source: " +:+ url +:+ " (cached)" +:+ str1 nl +:+ str1 nl
              +:+ py_str content)
     | None, _ => inl (KeyError "title")
     | Some _, None => inl (KeyError "content")
     end, w).
Proof.
  intros Hsrc url Hf Hj Hts Hs Hage Herr.
  assert (Hv : cache_valid (cache_path url) w = (inr true, w)).
  { rewrite (cache_valid_stamped _ _ t) by (by exists txt, d, s).
    by rewrite bool_decide_eq_true_2. }
  destruct (fetch_hit _ _ Hv) as (txt' & d' & Hf' & Hj' & Hhit).
  rewrite Hf in Hf'. injection Hf' as <-. rewrite Hj in Hj'. injection Hj' as <-.
  unfold fetch_nvidia_docs. rewrite Hsrc. fold url. unfold bind at 1. rewrite Hhit.
  unfold render_page, dict_mem, dict_get_default.
  rewrite !dict_get_set_other by done. rewrite dict_get_set, Herr. cbn [truthy].
  unfold bind.
  destruct (dict_get "title" d) as [title|]; [|done].
  by destruct (dict_get "content" d) as [content|].
Qed.

Lemma fetch_nvidia_docs_cached_text_witness :
  fetch_nvidia_docs (L := Demo.libs) "DPDK mlx5" "/mlx5.html" false Demo.cached_world
  = (inr ("# mlx5 platform" +:+ str1 nl +:+ str1 nl
          +:+ "Source: " +:+ Demo.mlx5_url +:+ " (cached)" +:+ str1 nl +:+ str1 nl
          +:+ Demo.mlx5_content), Demo.cached_world).
Proof.
  exact (fetch_nvidia_docs_cached_text (L := Demo.libs) "DPDK mlx5" "/mlx5.html"
           (Demo.dumps (JObj (Demo.mlx5_record Demo.later_iso))) Demo.later_iso
           (Source "https://doc.dpdk.org/guides/platform" "DPDK mlx5 Driver" ["/mlx5.html"])
           (Demo.mlx5_record Demo.later_iso) Demo.later Demo.cached_world
           eq_refl eq_refl eq_refl eq_refl eq_refl eq_refl eq_refl).
Defined.

(** ** Normalized topics *)

Section NormalizeFacts.

Lemma normalize_char_idem c : normalize_char (normalize_char c) = normalize_char c.
Proof. by destruct c as [[] [] [] [] [] [] [] []]. Qed.

Lemma normalize_char_lowered c : lower_char (normalize_char c) = normalize_char c.
Proof. by destruct c as [[] [] [] [] [] [] [] []]. Qed.

Lemma normalize_char_no_hyphen c : Ascii.eqb (normalize_char c) "-" = false.
Proof. by destruct c as [[] [] [] [] [] [] [] []]. Qed.

Lemma normalize_char_no_space c : Ascii.eqb (normalize_char c) " " = false.
Proof. by destruct c as [[] [] [] [] [] [] [] []]. Qed.

Lemma has_char_map_chars f c s :
  (forall x, Ascii.eqb (f x) c = false) -> has_char c (map_chars f s) = false.
Proof. intros Hf. induction s as [|x s IH]; simpl; [done|]. by rewrite Hf, IH. Qed.

End NormalizeFacts.

(** X15: the normalized form of a topic holds no hyphen and no space, is
    in lower case, and is its own normalized form; a key of the registry
    with a hyphen, a space or a capital letter could not be reached through
    [fetch_nvidia_docs]. *)
Theorem normalize_topic_normal (topic : string) :
  has_char "-" (normalize_topic topic) = false
  /\ has_char " " (normalize_topic topic) = false
  /\ lower (normalize_topic topic) = normalize_topic topic
  /\ normalize_topic (normalize_topic topic) = normalize_topic topic
  /\ forall key,
       (has_char "-" key = true \/ has_char " " key = true \/ lower key <> key) ->
       normalize_topic topic <> key.
Proof.
  assert (H1 : has_char "-" (normalize_topic topic) = false).
  { rewrite normalize_topic_chars. apply has_char_map_chars, normalize_char_no_hyphen. }
  assert (H2 : has_char " " (normalize_topic topic) = false).
  { rewrite normalize_topic_chars. apply has_char_map_chars, normalize_char_no_space. }
  assert (H3 : lower (normalize_topic topic) = normalize_topic topic).
  { rewrite normalize_topic_chars. unfold lower. rewrite map_chars_compose.
    apply map_chars_ext, normalize_char_lowered. }
  split_and!; try done.
  - rewrite !normalize_topic_chars, map_chars_compose.
    apply map_chars_ext, normalize_char_idem.
  - intros key [Hk|[Hk|Hk]] <-; congruence.
Qed.

(** ** The sweep and the query *)

Section QueryFacts.

Context {L : Libs}.

Lemma search_page_query q1 q2 src page_path results1 results2 w :
  (search_page q1 src page_path results1 w).2 = (search_page q2 src page_path results2 w).2
  /\ raised (search_page q1 src page_path results1 w)
     = raised (search_page q2 src page_path results2 w).
Proof.
  unfold search_page, bind, raised.
  destruct (fetch (base src +:+ page_path) false w) as [[e|data] w1]; [done|].
  destruct (dict_mem "error" data); [done|].
  destruct (dict_get_default "content" (JStr EmptyString) data); try done.
  cbn [as_str ret].
  destruct (contains q1 (lower s)), (contains q2 (lower s));
    try destruct (matching_paragraphs q1 s); try destruct (matching_paragraphs q2 s); done.
Qed.

Lemma search_pages_query q1 q2 src page_paths results1 results2 w :
  (search_pages q1 src page_paths results1 w).2
  = (search_pages q2 src page_paths results2 w).2
  /\ raised (search_pages q1 src page_paths results1 w)
     = raised (search_pages q2 src page_paths results2 w).
Proof.
  revert results1 results2 w.
  induction page_paths as [|page rest IH]; intros results1 results2 w; [done|].
  cbn [search_pages]. unfold bind.
  destruct (search_page_query q1 q2 src page results1 results2 w) as [Hw Hr].
  unfold raised in Hr.
  destruct (search_page q1 src page results1 w) as [[e1|r1] w1],
           (search_page q2 src page results2 w) as [[e2|r2] w2];
    cbn [fst snd] in *; subst; try done; try (by simplify_eq); apply IH.
Qed.

Lemma search_topics_query q1 q2 topics results1 results2 w :
  (search_topics q1 topics results1 w).2 = (search_topics q2 topics results2 w).2
  /\ raised (search_topics q1 topics results1 w)
     = raised (search_topics q2 topics results2 w).
Proof.
  revert results1 results2 w.
  induction topics as [|t rest IH]; intros results1 results2 w; [done|].
  cbn [search_topics]. destruct (lookup_source t) as [src|]; [|apply IH].
  unfold bind.
  destruct (search_pages_query q1 q2 src (pages src) results1 results2 w) as [Hw Hr].
  unfold raised in Hr.
  destruct (search_pages q1 src (pages src) results1 w) as [[e1|r1] w1],
           (search_pages q2 src (pages src) results2 w) as [[e2|r2] w2];
    cbn [fst snd] in *; subst; try done; try (by simplify_eq); apply IH.
Qed.

End QueryFacts.

(** X16: what a search does to the world does not depend on the query: two
    searches over the same topics from the same world send the same requests,
    leave the same files and the same clock, and raise the same exception or
    none.  The sweep goes through every page whatever was found before; there
    is no early exit once 10 documents have matched. *)
Theorem search_sweep_ignores_query {L : Libs} (query1 query2 : string)
    (topics : option (list string)) (w : World) :
  (search_nvidia_docs query1 topics w).2 = (search_nvidia_docs query2 topics w).2
  /\ raised (search_nvidia_docs query1 topics w) = raised (search_nvidia_docs query2 topics w).
Proof.
  unfold search_nvidia_docs, bind. cbv zeta.
  destruct (search_topics_query (lower query1) (lower query2) (requested topics) [] [] w)
    as [Hw Hr].
  unfold raised in *.
  by destruct (search_topics (lower query1) (requested topics) [] w) as [[e1|r1] w1],
              (search_topics (lower query2) (requested topics) [] w) as [[e2|r2] w2].
Qed.

(** ** Paragraphs *)

Section SplitFacts.

Lemma join_cons_char sep x p ps :
  join sep (String x p :: ps) = String x (join sep (p :: ps)).
Proof. by destruct ps. Qed.

Lemma split_blank_nonempty c : split_blank c <> [].
Proof.
  destruct (split_blank_parts c) as [(p0 & ps & Hs & _) _]. by rewrite Hs.
Qed.

Lemma join_split_blank c :
  join (newlines 2) (split_blank c) = c
  /\ forall x, join (newlines 2) (split_blank (String x c)) = String x c.
Proof.
  induction c as [|y c [IHc IHy]]; [done|].
  split; [apply IHy|]. intros x. rewrite split_blank_cons2.
  destruct (is_nl x && is_nl y) eqn:Hxy.
  - apply andb_true_iff in Hxy as [->%is_nl_true ->%is_nl_true].
    pose proof (split_blank_nonempty c).
    destruct (split_blank c) as [|p ps] eqn:Hs; [done|].
    change (join (newlines 2) (EmptyString :: p :: ps))
      with (EmptyString +:+ newlines 2 +:+ join (newlines 2) (p :: ps)).
    by rewrite IHc.
  - specialize (IHy y). pose proof (split_blank_nonempty (String y c)).
    destruct (split_blank (String y c)) as [|p ps]; [done|].
    by rewrite join_cons_char, IHy.
Qed.

Lemma filter_all {A} (f : A -> bool) l : (forall x, f x = true) -> List.filter f l = l.
Proof. intros Hf. induction l as [|x l IH]; simpl; [done|]. by rewrite Hf, IH. Qed.

End SplitFacts.

(** X17: an empty query matches every paragraph: each page that is fetched
    without error adds an entry, with the first two paragraphs of its
    content, also when the content is empty. *)
Theorem empty_query_matches_all {L : Libs} (src : source) (page_path content : string)
    (data : dict) (results : list hit) (w w1 : World) :
  fetch (base src +:+ page_path) false w = (inr data, w1) ->
  dict_mem "error" data = false ->
  dict_get_default "content" (JStr EmptyString) data = JStr content ->
  matching_paragraphs (lower EmptyString) content = split_blank content
  /\ search_page (lower EmptyString) src page_path results w
     = (inr (results ++
             [Hit (name src) (dict_get_default "title" (JStr page_path) data)
                  (base src +:+ page_path) (firstn 2 (split_blank content))]), w1).
Proof.
  intros Hf He Hc.
  assert (Hall : matching_paragraphs (lower EmptyString) content = split_blank content).
  { unfold matching_paragraphs. apply filter_all. intros p. cbn [lower map_chars].
    destruct (lower p); simpl; by rewrite ?prefix_empty. }
  split; [done|].
  rewrite (search_page_run _ _ _ content data _ _ w1) by done. rewrite Hall.
  pose proof (split_blank_nonempty content). by destruct (split_blank content).
Qed.

Lemma empty_query_matches_all_witness :
  search_page (L := Demo.libs) EmptyString
    (Source "https://doc.dpdk.org/guides/platform" "DPDK mlx5 Driver" ["/mlx5.html"])
    "/mlx5.html" [] Demo.cached_world
  = (inr [Hit "DPDK mlx5 Driver" (JStr "mlx5 platform") Demo.mlx5_url
              ["# MLX5"; "Queue pairs"]],
     Demo.cached_world).
Proof.
  destruct (empty_query_matches_all (L := Demo.libs)
              (Source "https://doc.dpdk.org/guides/platform" "DPDK mlx5 Driver"
                 ["/mlx5.html"])
              "/mlx5.html" Demo.mlx5_content
              (Demo.mlx5_record Demo.later_iso ++ [("cached", JBool true)]) []
              Demo.cached_world Demo.cached_world eq_refl eq_refl eq_refl) as [_ Hrun].
  exact Hrun.
Defined.

(** X18: the paragraphs a content is split into, joined by two newlines,
    give the content back: nothing of a document is lost or reordered by the
    split, and there is always at least one paragraph. *)
Theorem paragraphs_rejoin (content : string) :
  join (newlines 2) (split_blank content) = content
  /\ split_blank content <> [].
Proof. split; [apply join_split_blank|apply split_blank_nonempty]. Qed.

(** ** Records that cannot be used, in every operation *)

Section AbsentFacts.

Context {L : Libs}.

Lemma forget_inv p w w0 :
  forget p w = forget p w0 ->
  clock w = clock w0 /\ requests w = requests w0
  /\ forall q, q <> p -> files w !! q = files w0 !! q.
Proof.
  unfold forget. intros H. injection H as Hf Hc Hr. split_and!; try done.
  intros q Hq.
  assert (Hd : delete p (files w) !! q = delete p (files w0) !! q) by (by rewrite Hf).
  by rewrite !lookup_delete_ne in Hd by done.
Qed.

Lemma forget_intro p w w0 :
  clock w = clock w0 -> requests w = requests w0 ->
  (forall q, q <> p -> files w !! q = files w0 !! q) ->
  forget p w = forget p w0.
Proof.
  unfold forget. intros -> -> H. f_equal. apply map_eq. intros q.
  destruct (decide (q = p)) as [->|Hq].
  - by rewrite !lookup_delete_eq.
  - rewrite !lookup_delete_ne by done. by apply H.
Qed.

Lemma unusable_files p w w' :
  files w' !! p = files w !! p -> unusable w p -> unusable w' p.
Proof.
  intros Hf [H|txt e H Hj He|txt d H Hj Ht|txt d s H Hj Ht Hs]; rewrite <- Hf in H.
  - by apply unusable_absent.
  - by eapply unusable_syntax.
  - by eapply unusable_no_ts.
  - by eapply unusable_bad_ts.
Qed.

Lemma absent_in_forget p w : unusable w p -> absent_in p w (forget p w).
Proof.
  intros Hu. split.
  - apply forget_intro; try done. intros q Hq. cbn. by rewrite lookup_delete_ne.
  - right. split; [done|]. cbn. by rewrite lookup_delete_eq.
Qed.

Lemma absent_in_lookup p w w0 q :
  absent_in p w w0 ->
  files w !! q = files w0 !! q \/ (q = p /\ unusable w p /\ files w0 !! p = None).
Proof.
  intros [Hfg Hp]. destruct (decide (q = p)) as [->|Hq].
  - destruct Hp as [Hp|Hp]; [by left|by right].
  - left. by apply (forget_inv _ _ _ Hfg).
Qed.

Lemma cache_valid_absent_in p q w w0 :
  absent_in p w w0 -> (cache_valid q w).1 = (cache_valid q w0).1.
Proof.
  intros Ha. destruct (absent_in_lookup _ _ _ q Ha) as [Hq|(-> & Hu & Hn)].
  - rewrite !cache_valid_cases. cbn [fst]. rewrite Hq.
    destruct Ha as [Hfg _]. by destruct (forget_inv _ _ _ Hfg) as (-> & _).
  - rewrite (cache_valid_unusable _ _ Hu).
    by rewrite (cache_valid_unusable _ _ (unusable_absent _ _ Hn)).
Qed.

Lemma absent_in_step p w w0 w' w0' :
  absent_in p w w0 ->
  clock w' = clock w0' -> requests w' = requests w0' ->
  (forall q, files w !! q = files w0 !! q -> files w' !! q = files w0' !! q) ->
  (files w' !! p = files w !! p /\ files w0' !! p = files w0 !! p
   \/ files w' !! p = files w0' !! p) ->
  absent_in p w' w0'.
Proof.
  intros [Hfg Hp] Hc Hr Hq Hat. destruct (forget_inv _ _ _ Hfg) as (_ & _ & Hoff).
  split.
  - apply forget_intro; try done. intros q Hne. by apply Hq, Hoff.
  - destruct Hat as [[Hw Hw0]|Heq]; [|by left].
    destruct Hp as [Hp|[Hu Hn]].
    + left. by rewrite Hw, Hw0.
    + right. split; [by apply (unusable_files _ w)|]. by rewrite Hw0.
Qed.

Lemma fetch_forced_respects p url : respects p (fetch url true).
Proof.
  intros w w0 Ha. pose proof Ha as [Hfg _].
  destruct (forget_inv _ _ _ Hfg) as (Hc & Hr & _).
  rewrite !fetch_forced, <- Hc.
  assert (Hget : absent_in p (after_get url w) (after_get url w0)).
  { apply (absent_in_step _ _ _ _ _ Ha); cbn; try done; [by rewrite Hc|by rewrite Hr|by left]. }
  destruct (outcome (http_get url (clock w))) as [e|text]; [done|].
  cbv zeta. destruct (select_main _) as [main|]; [|done].
  split; [done|].
  apply (absent_in_step _ _ _ _ _ Ha); cbn; try done; [by rewrite Hr| |].
  - intros q Hq. destruct (decide (q = cache_path url)) as [->|Hne].
    + by rewrite !lookup_insert_eq.
    + by rewrite !lookup_insert_ne.
  - destruct (decide (p = cache_path url)) as [->|Hne].
    + right. by rewrite !lookup_insert_eq.
    + left. by rewrite !lookup_insert_ne.
Qed.

Lemma read_cached_cases url w :
  read_cached url w
  = (match files w !! cache_path url with
     | None => inl OSError
     | Some txt =>
         match json_loads txt with
         | inl e => inl e
         | inr (JObj d) => inr (dict_set "cached" (JBool true) d)
         | inr _ => inl TypeError
         end
     end, w).
Proof.
  unfold read_cached, bind, read_text.
  destruct (files w !! cache_path url) as [txt|]; [|done].
  destruct (json_loads txt) as [e|data]; [done|]. by destruct data.
Qed.

Lemma fetch_respects p url refresh : respects p (fetch url refresh).
Proof.
  destruct refresh; [apply fetch_forced_respects|].
  intros w w0 Ha. rewrite !fetch_unforced.
  rewrite <- (cache_valid_absent_in _ (cache_path url) _ _ Ha).
  destruct (cache_valid (cache_path url) w) as [[e|[|]] w'] eqn:Hv; cbn [fst].
  - done.
  - rewrite !read_cached_cases. cbn [fst snd]. split; [|done].
    destruct (absent_in_lookup _ _ _ (cache_path url) Ha) as [->|(Hq & Hu & _)]; [done|].
    rewrite <- Hq in Hu. rewrite (cache_valid_unusable _ _ Hu) in Hv. done.
  - by apply fetch_forced_respects.
Qed.

Lemma respects_ret {A} p (a : A) : respects p (ret a).
Proof. by intros w w0 Ha. Qed.

Lemma respects_raise {A} p e : respects p (raise (A := A) e).
Proof. by intros w w0 Ha. Qed.

Lemma respects_bind {A B} p (m : M A) (k : A -> M B) :
  respects p m -> (forall a, respects p (k a)) -> respects p (bind m k).
Proof.
  intros Hm Hk w w0 Ha. unfold bind. destruct (Hm w w0 Ha) as [Hr Hw].
  destruct (m w) as [[e|a] w1], (m w0) as [[e0|a0] w1']; cbn in Hr, Hw; try done.
  - injection Hr as <-. by split.
  - injection Hr as <-. by apply Hk.
Qed.

Lemma respects_of_option {A} p e (o : option A) : respects p (of_option e o).
Proof. destruct o; [apply respects_ret|apply respects_raise]. Qed.

Lemma render_page_respects p url result : respects p (render_page url result).
Proof.
  unfold render_page. destruct (dict_mem "error" result).
  - apply respects_bind; [apply respects_of_option|]. intros err. apply respects_ret.
  - apply respects_bind; [apply respects_of_option|]. intros title.
    apply respects_bind; [apply respects_of_option|]. intros content. apply respects_ret.
Qed.

Lemma fetch_nvidia_docs_respects p topic page refresh :
  respects p (fetch_nvidia_docs topic page refresh).
Proof.
  unfold fetch_nvidia_docs. destruct (lookup_source _) as [src|]; [|apply respects_ret].
  apply respects_bind; [apply fetch_respects|]. intros result. apply render_page_respects.
Qed.

Lemma search_page_respects p q src page_path results :
  respects p (search_page q src page_path results).
Proof.
  unfold search_page. apply respects_bind; [apply fetch_respects|]. intros data.
  destruct (dict_mem "error" data); [apply respects_ret|].
  apply respects_bind.
  - unfold as_str. destruct (dict_get_default _ _ _); (apply respects_ret || apply respects_raise).
  - intros content. destruct (contains q (lower content)); [|apply respects_ret].
    destruct (matching_paragraphs q content); apply respects_ret.
Qed.

Lemma search_pages_respects p q src page_paths results :
  respects p (search_pages q src page_paths results).
Proof.
  revert results. induction page_paths as [|page_path rest IH]; intros results.
  - apply respects_ret.
  - cbn [search_pages]. apply respects_bind; [apply search_page_respects|]. apply IH.
Qed.

Lemma search_topics_respects p q topics results :
  respects p (search_topics q topics results).
Proof.
  revert results. induction topics as [|topic rest IH]; intros results.
  - apply respects_ret.
  - cbn [search_topics]. destruct (lookup_source topic) as [src|]; [|apply IH].
    apply respects_bind; [apply search_pages_respects|]. apply IH.
Qed.

Lemma search_nvidia_docs_respects p query topics :
  respects p (search_nvidia_docs query topics).
Proof.
  unfold search_nvidia_docs. apply respects_bind; [apply search_topics_respects|].
  intros results. apply respects_ret.
Qed.

Lemma respects_as_absent {A} p (op : M A) w :
  unusable w p -> respects p op -> as_absent p op w.
Proof.
  intros Hu Hop. destruct (Hop w (forget p w) (absent_in_forget _ _ Hu)) as [Hr [Hfg _]].
  by split.
Qed.

End AbsentFacts.



(** ** The encodings on disk read back what they wrote *)

Section CodecFacts.

Import Codec.

Lemma scan_escape_char c t : scan_string (escape_char c +:+ t) = prepend c (scan_string t).
Proof. destruct c as [[] [] [] [] [] [] [] []]; reflexivity. Qed.

Lemma scan_quoted s rest :
  scan_string (escape_ascii s +:+ String dquote rest) = Some (s, rest).
Proof.
  induction s as [|c s IH].
  - reflexivity.
  - cbn [escape_ascii]. rewrite app_assoc', scan_escape_char, IH. reflexivity.
Qed.

Lemma strip_app p s : strip p (p +:+ s) = Some s.
Proof.
  induction p as [|c p IH]; [done|]. rewrite app_cons. cbn [strip].
  by rewrite Ascii.eqb_refl.
Qed.

Lemma loads_value_dumps v txt rest :
  dumps_value v = Some txt -> loads_value (txt +:+ rest) = Some (v, rest).
Proof.
  destruct v as [|[|]| |s| |]; intros [= <-]; try reflexivity.
  unfold quoted. rewrite app_cons. unfold loads_value.
  change (Ascii.eqb dquote dquote) with true. cbv iota.
  rewrite app_assoc'. change (str1 dquote +:+ rest) with (String dquote rest).
  rewrite scan_quoted. reflexivity.
Qed.

Lemma loads_member_dumps kv txt rest :
  dumps_member kv = Some txt -> loads_member (txt +:+ rest) = Some (kv, rest).
Proof.
  destruct kv as [k v]. unfold dumps_member. cbn [fst snd].
  destruct (dumps_value v) as [tv|] eqn:Hv; [|done]. intros [= <-].
  unfold loads_member, quoted.
  change ("  " +:+ String dquote (escape_ascii k +:+ str1 dquote) +:+ ": " +:+ tv)
    with (("  " +:+ str1 dquote) +:+ ((escape_ascii k +:+ str1 dquote) +:+ ": " +:+ tv)).
  rewrite (app_assoc' ("  " +:+ str1 dquote)), strip_app. cbn [mbind option_bind].
  rewrite !app_assoc'. change (str1 dquote +:+ ?x) with (String dquote x).
  rewrite scan_quoted. cbn [mbind option_bind].
  rewrite strip_app. cbn [mbind option_bind].
  rewrite (loads_value_dumps _ _ _ Hv). reflexivity.
Qed.

Lemma dumps_members_length d body :
  dumps_members d = Some body -> (length d <= String.length body)%nat.
Proof.
  revert body. induction d as [|kv rest IH]; intros body; [done|].
  cbn [dumps_members]. destruct (dumps_member kv) as [m|] eqn:Hm; [|done].
  cbn [mbind option_bind].
  assert (Hlen : (1 <= String.length m)%nat).
  { unfold dumps_member in Hm. destruct (dumps_value kv.2); [|done].
    injection Hm as <-. rewrite !app_cons. cbn [String.length]. lia. }
  destruct rest as [|kv' rest'].
  - intros [= <-]. cbn [length]. lia.
  - destruct (dumps_members (kv' :: rest')) as [r|]; [|done]. intros [= <-].
    specialize (IH r eq_refl). rewrite !length_append. cbn [length] in *. lia.
Qed.

Lemma loads_members_dumps d : forall body acc fuel,
  dumps_members d = Some body ->
  (length d <= fuel)%nat ->
  loads_members fuel (body +:+ str1 nl +:+ "}") acc
  = Some (fold_left (fun a kv => dict_set kv.1 kv.2 a) d acc).
Proof.
  induction d as [|kv rest IH]; intros body acc fuel; [done|].
  cbn [dumps_members]. destruct (dumps_member kv) as [m|] eqn:Hm; [|done].
  cbn [mbind option_bind]. intros Hbody Hfuel.
  destruct fuel as [|fuel]; [cbn in Hfuel; lia|]. cbn [loads_members fold_left].
  destruct rest as [|kv' rest'].
  - injection Hbody as <-. rewrite (loads_member_dumps _ _ _ Hm).
    cbn [mbind option_bind]. by rewrite String.eqb_refl.
  - destruct (dumps_members (kv' :: rest')) as [r|] eqn:Hr; [|done].
    injection Hbody as <-. rewrite !app_assoc'.
    rewrite (loads_member_dumps _ _ _ Hm). cbn [mbind option_bind].
    change (String.eqb ("," +:+ str1 nl +:+ r +:+ str1 nl +:+ "}") (str1 nl +:+ "}"))
      with false. cbv iota.
    rewrite <- (app_assoc' "," (str1 nl)), strip_app. cbn [mbind option_bind].
    apply IH; [done|]. cbn [length] in *. lia.
Qed.

Lemma dict_set_fresh k v d : k ∉ d.*1 -> dict_set k v d = d ++ [(k, v)].
Proof.
  induction d as [|[k' v'] d IH]; [done|]. cbn. intros Hk.
  apply not_elem_of_cons in Hk as [Hne Hk].
  destruct (String.eqb_spec k k') as [->|_]; [done|]. by rewrite IH.
Qed.

Lemma fold_dict_set d : forall acc,
  NoDup (acc ++ d).*1 ->
  fold_left (fun a kv => dict_set kv.1 kv.2 a) d acc = acc ++ d.
Proof.
  induction d as [|[k v] d IH]; intros acc Hnd; [by rewrite app_nil_r|].
  cbn [fold_left fst snd]. rewrite dict_set_fresh.
  - rewrite IH; [by rewrite <- app_assoc|]. by rewrite <- app_assoc.
  - rewrite fmap_app in Hnd. apply NoDup_app in Hnd as (_ & Hd & _).
    intros Hin. apply (Hd _ Hin). cbn. left.
Qed.

(** A dictionary of strings, [None] and booleans is read back from its
    text as it was. *)
Lemma loads_dumps_record d txt :
  NoDup d.*1 -> dumps_record d = Some txt -> loads_record txt = Some d.
Proof.
  intros Hnd. destruct d as [|kv rest]; [by intros [= <-]|].
  unfold dumps_record. destruct (dumps_members (kv :: rest)) as [body|] eqn:Hb; [|done].
  intros [= <-]. unfold loads_record.
  change (String.eqb ("{" +:+ str1 nl +:+ body +:+ str1 nl +:+ "}") "{}") with false.
  cbv iota. rewrite <- (app_assoc' "{" (str1 nl)), strip_app. cbn [mbind option_bind].
  rewrite (loads_members_dumps _ _ _ _ Hb).
  - by rewrite fold_dict_set.
  - apply dumps_members_length in Hb. rewrite !length_append. lia.
Qed.

Lemma digit_value_digit d : 0 <= d < 10 -> digit_value (digit d) = Some d.
Proof.
  intros H.
  assert (d = 0 \/ d = 1 \/ d = 2 \/ d = 3 \/ d = 4 \/ d = 5 \/ d = 6 \/ d = 7
          \/ d = 8 \/ d = 9) as Hd by lia.
  repeat (destruct Hd as [->|Hd]; [reflexivity|]). by subst.
Qed.

Lemma number_digits_from n : forall k v acc rest,
  0 <= v < 10 ^ Z.of_nat n ->
  number (n + k) acc (digits n v +:+ rest) = number k (acc * 10 ^ Z.of_nat n + v) rest.
Proof.
  induction n as [|n IH]; intros k v acc rest Hv.
  - cbn [digits Nat.add]. change (10 ^ Z.of_nat 0) with 1 in *.
    replace (acc * 1 + v) with acc by lia. reflexivity.
  - cbn [digits]. unfold str1. rewrite app_assoc', app_cons.
    rewrite Nat2Z.inj_succ, Z.pow_succ_r in * by lia.
    replace (S n + k)%nat with (n + S k)%nat by lia.
    rewrite IH by (split; [apply Z.div_pos; lia|apply Z.div_lt_upper_bound; lia]).
    cbn [number]. rewrite digit_value_digit by (apply Z.mod_pos_bound; lia).
    f_equal. pose proof (Z.div_mod v 10). lia.
Qed.

Lemma number_digits n v rest :
  0 <= v < 10 ^ Z.of_nat n ->
  number n 0 (digits n v +:+ rest) = Some (v, rest).
Proof.
  intros Hv. replace n with (n + 0)%nat at 1 by lia.
  rewrite number_digits_from by done. reflexivity.
Qed.

(** The day number of the date of a day is that day; months and days are
    those of a calendar. *)
Lemma days_from_civil_from_days z y m d :
  civil_from_days z = (y, m, d) ->
  1 <= m <= 12 /\ 1 <= d <= 31 /\ days_from_civil y m d = z.
Proof.
  unfold civil_from_days, days_from_civil. cbv zeta. intros [= <- <- <-].
  repeat match goal with
         | |- context [?a <? ?b] => destruct (Z.ltb_spec a b)
         | |- context [?a <=? ?b] => destruct (Z.leb_spec a b)
         end;
    Z.div_mod_to_equations; lia.
Qed.

Lemma expect_app c rest : expect c (str1 c +:+ rest) = Some rest.
Proof. unfold str1. rewrite app_cons. cbn [expect]. by rewrite Ascii.eqb_refl. Qed.

Lemma fromisoformat_fields_isoformat t :
  representable t = true -> fromisoformat_fields (isoformat_text t) = Some t.
Proof.
  unfold representable, year_of, isoformat_text. intros Hy.
  destruct (civil_from_days (t / day_us)) as [[y m] d] eqn:Hc. cbn [fst] in Hy.
  destruct (days_from_civil_from_days _ _ _ _ Hc) as (Hm & Hd & Hinv).
  apply andb_true_iff in Hy as [Hy1 Hy2]. apply Z.leb_le in Hy1, Hy2.
  set (secs := t mod day_us / 1000000). set (us := t mod day_us mod 1000000).
  assert (Hsecs : 0 <= secs < 86400).
  { subst secs. unfold day_us. Z.div_mod_to_equations. lia. }
  assert (Hus : 0 <= us < 1000000).
  { subst us. unfold day_us. Z.div_mod_to_equations. lia. }
  unfold fromisoformat_fields.
  rewrite number_digits by (change (10 ^ Z.of_nat 4) with 10000; lia).
  cbn [mbind option_bind].
  rewrite (expect_app "-"). cbn [mbind option_bind].
  rewrite number_digits by (change (10 ^ Z.of_nat 2) with 100; lia).
  cbn [mbind option_bind].
  rewrite (expect_app "-"). cbn [mbind option_bind].
  rewrite number_digits by (change (10 ^ Z.of_nat 2) with 100; lia).
  cbn [mbind option_bind].
  rewrite (expect_app "T"). cbn [mbind option_bind].
  rewrite number_digits
    by (change (10 ^ Z.of_nat 2) with 100; Z.div_mod_to_equations; lia).
  cbn [mbind option_bind].
  rewrite (expect_app ":"). cbn [mbind option_bind].
  rewrite number_digits
    by (change (10 ^ Z.of_nat 2) with 100; Z.div_mod_to_equations; lia).
  cbn [mbind option_bind].
  rewrite (expect_app ":"). cbn [mbind option_bind].
  rewrite number_digits
    by (change (10 ^ Z.of_nat 2) with 100; Z.div_mod_to_equations; lia).
  cbn [mbind option_bind].
  assert (Ht : days_from_civil y m d * day_us
               + ((secs / 3600 * 60 + secs / 60 mod 60) * 60 + secs mod 60) * 1000000 + us
               = t).
  { rewrite Hinv. subst secs us. unfold day_us. Z.div_mod_to_equations. lia. }
  destruct (Z.eqb_spec us 0) as [Hz|Hz].
  - rewrite Hz in Ht. cbn [mbind option_bind]. by rewrite Ht.
  - rewrite app_cons. cbn [expect mbind option_bind]. rewrite Ascii.eqb_refl.
    cbn [mbind option_bind].
    change (EmptyString +:+ digits 6 us) with (digits 6 us).
    rewrite <- (app_empty_r (digits 6 us)).
    rewrite number_digits by (change (10 ^ Z.of_nat 6) with 1000000; lia).
    cbn [mbind option_bind]. by rewrite Ht.
Qed.

(** A time with a year from 1 to 9999 is read back from its text as it
    was, and a text that is read is the text of the time it gives. *)
Lemma fromisoformat_isoformat t :
  representable t = true -> fromisoformat_text (isoformat_text t) = Some t.
Proof.
  intros Hr. unfold fromisoformat_text. rewrite fromisoformat_fields_isoformat by done.
  cbn [mbind option_bind]. by rewrite Hr, String.eqb_refl.
Qed.

Lemma fromisoformat_text_written s t :
  fromisoformat_text s = Some t -> representable t = true /\ isoformat_text t = s.
Proof.
  unfold fromisoformat_text. destruct (fromisoformat_fields s) as [t'|]; [|done].
  cbn [mbind option_bind].
  destruct (representable t') eqn:Hr; [|done].
  destruct (String.eqb_spec (isoformat_text t') s); [|done].
  by intros [= <-].
Qed.

End CodecFacts.

Example dumps_demo_record :
  Codec.dumps_record (Demo.mlx5_record Demo.later_iso)
  = Some ("{" +:+ str1 nl
          +:+ "  " +:+ Demo.q "url" +:+ ": " +:+ Demo.q Demo.mlx5_url +:+ "," +:+ str1 nl
          +:+ "  " +:+ Demo.q "title" +:+ ": " +:+ Demo.q "mlx5 platform" +:+ "," +:+ str1 nl
          +:+ "  " +:+ Demo.q "content" +:+ ": " +:+ Demo.q "# MLX5\n\nQueue pairs"
          +:+ "," +:+ str1 nl
          +:+ "  " +:+ Demo.q "ts" +:+ ": " +:+ Demo.q "2026-11-03T12:00:02.500000"
          +:+ str1 nl +:+ "}").
Proof. reflexivity. Qed.

(** A title that is [None], and a content with a quote, a backslash, the
    short escapes, control characters and a letter that is not ASCII. *)
Example dumps_escapes :
  Codec.dumps_record
    [("title", JNull);
     ("content",
      JStr ("a" +:+ str1 dquote +:+ "b\c" +:+ str1 nl +:+ str1 (ascii_of_nat 9)
            +:+ str1 (ascii_of_nat 13) +:+ str1 (ascii_of_nat 8)
            +:+ str1 (ascii_of_nat 12) +:+ str1 (ascii_of_nat 127)
            +:+ str1 (ascii_of_nat 31) +:+ str1 (ascii_of_nat 233) +:+ " /"))]
  = Some ("{" +:+ str1 nl
          +:+ "  " +:+ Demo.q "title" +:+ ": null," +:+ str1 nl
          +:+ "  " +:+ Demo.q "content" +:+ ": "
          +:+ Demo.q ("a\" +:+ str1 dquote +:+ "b\\c\n\t\r\b\f\u007f\u001f\u00e9 /")
          +:+ str1 nl +:+ "}").
Proof. reflexivity. Qed.

(** An escape in capital letters, an escaped slash, and a key that comes
    twice. *)
Example loads_escapes :
  Codec.loads_record
    ("{" +:+ str1 nl
     +:+ "  " +:+ Demo.q "a" +:+ ": " +:+ Demo.q "\u00E9\/" +:+ "," +:+ str1 nl
     +:+ "  " +:+ Demo.q "b" +:+ ": true," +:+ str1 nl
     +:+ "  " +:+ Demo.q "a" +:+ ": null" +:+ str1 nl +:+ "}")
  = Some [("a", JNull); ("b", JBool true)].
Proof. reflexivity. Qed.

Example loads_torn : Codec.loads_record Demo.torn_text = None.
Proof. reflexivity. Qed.

Example isoformat_whole_second :
  Codec.isoformat_text 1793707200000000 = "2026-11-03T12:00:00".
Proof. reflexivity. Qed.

Example isoformat_microseconds :
  Codec.isoformat_text 1793707202500000 = "2026-11-03T12:00:02.500000"
  /\ Codec.isoformat_text 951868799999999 = "2000-02-29T23:59:59.999999"
  /\ Codec.isoformat_text (-1) = "1969-12-31T23:59:59.999999".
Proof. by repeat split. Qed.

Example isoformat_limits :
  Codec.isoformat_text (-62135596800000000) = "0001-01-01T00:00:00"
  /\ Codec.isoformat_text 253402300799999999 = "9999-12-31T23:59:59.999999"
  /\ Codec.representable (-62135596800000001) = false
  /\ Codec.representable 253402300800000000 = false.
Proof. by repeat split. Qed.

Example fromisoformat_no_such_day :
  Codec.fromisoformat_text "2026-02-29T12:00:00" = None
  /\ Codec.fromisoformat_text "2024-02-29T12:00:00" = Some 1709208000000000.
Proof. by repeat split. Qed.

(** ** Write, then read *)

Section RoundTrip.

Context {L : Libs}.

Lemma page_title_value url sp :
  page_title url sp = JNull \/ exists s, page_title url sp = JStr s.
Proof.
  unfold page_title. destruct (find_name "title" sp) as [t|]; [|right; by eexists].
  destruct (tag_string t) as [s|]; [right; by eexists|by left].
Qed.

(** The record a fetch has just written has a title that is a string or
    [None]. *)
Lemma fetch_wrote_record url refresh w d w1 :
  fetch url refresh w = (inr d, w1) ->
  dict_get "cached" d = Some (JBool false) ->
  exists title content,
    (title = JNull \/ exists s, title = JStr s)
    /\ d = new_record url title content (clock w1) ++ [("cached", JBool false)]
    /\ files w1
       = <[cache_path url := json_dumps (JObj (new_record url title content (clock w1)))]>
           (files w).
Proof.
  assert (Hforced : fetch url true w = (inr d, w1) ->
            dict_get "cached" d = Some (JBool false) ->
            exists title content,
              (title = JNull \/ exists s, title = JStr s)
              /\ d = new_record url title content (clock w1) ++ [("cached", JBool false)]
              /\ files w1
                 = <[cache_path url
                     := json_dumps (JObj (new_record url title content (clock w1)))]>
                     (files w)).
  { intros Hf Hc.
    destruct (fetch_forced_result url w) as [(e & He)|(text & main & _ & _ & Hs)].
    - rewrite He in Hf. by simplify_eq.
    - cbv zeta in Hs. rewrite Hs in Hf. simplify_eq.
      eexists _, _. split; [apply page_title_value|]. by split. }
  destruct refresh; [exact Hforced|].
  rewrite fetch_unforced.
  destruct (cache_valid (cache_path url) w).1 as [e|[|]]; [done| |exact Hforced].
  intros Hr Hc. apply read_cached_tagged in Hr. congruence.
Qed.

End RoundTrip.

(** With the encodings of the Python library, the text of a record that
    [fetch] writes is read back as the record, and the timestamp of a time
    with a year from 1 to 9999 is read back as the time. *)
Lemma record_round_trip (L0 : Libs) (url content : string) (title : json) (now : Z) :
  title = JNull \/ (exists s, title = JStr s) ->
  1 <= Codec.year_of now <= 9999 ->
  let record := new_record (L := with_codec L0) url title content now in
  json_loads (Libs := with_codec L0) (json_dumps (Libs := with_codec L0) (JObj record))
  = inr (JObj record)
  /\ isoformat (Libs := with_codec L0) now = Codec.isoformat_text now
  /\ fromisoformat (Libs := with_codec L0) (isoformat (Libs := with_codec L0) now)
     = Some (Naive now).
Proof.
  intros Htitle Hyear record.
  assert (Hr : Codec.representable now = true).
  { unfold Codec.representable. apply andb_true_iff. split; apply Z.leb_le; lia. }
  assert (Hiso : isoformat (Libs := with_codec L0) now = Codec.isoformat_text now).
  { cbn [isoformat with_codec]. by rewrite Hr. }
  split_and!; [|done|].
  - assert (Hd : exists txt, Codec.dumps_record record = Some txt).
    { subst record. unfold new_record. destruct Htitle as [->|[s ->]]; by eexists. }
    destruct Hd as (txt & Hd).
    assert (Hnd : NoDup record.*1).
    { subst record. cbn. by apply (bool_decide_unpack (NoDup _)). }
    cbn [json_dumps json_loads with_codec]. rewrite Hd.
    by rewrite (loads_dumps_record _ _ Hnd Hd).
  - rewrite Hiso. cbn [fromisoformat with_codec].
    by rewrite (fromisoformat_isoformat _ Hr).
Qed.


